(* Verification of the trade-platform order saga, risk scoring engine and
   PnL consistency validator (orchestrator, risk_service, pricing_pnl_service).

   Python floats are modelled as exact rationals [Q]; Python ints as [Z].
   Remote calls of the orchestrator are modelled as outcomes supplied by an
   environment record, except where a claim depends on what the called
   service computes, where the service's own model is plugged in. *)

From Stdlib Require Import ZArith QArith Qround Qabs String List Bool Lia Lqa.
Import ListNotations.

Open Scope string_scope.
Open Scope Q_scope.

(* ------------------------------------------------------------------------- *)
(** * Python helpers over [Q] *)

Definition Qltb (x y : Q) : bool := negb (Qle_bool y x).
Definition Qgtb (x y : Q) : bool := Qltb y x.
Definition Qgeb (x y : Q) : bool := Qle_bool y x.

(** Python's [round(x, n)]: round half to even at [n] decimals. *)
Definition round_half_even (q : Q) : Z :=
  let f := Qfloor q in
  let d := q - inject_Z f in
  if Qltb d (1 # 2) then f
  else if Qltb (1 # 2) d then (f + 1)%Z
  else if Z.even f then f else (f + 1)%Z.

Definition py_round (x : Q) (n : nat) : Q :=
  let s := inject_Z (10 ^ Z.of_nat n) in
  inject_Z (round_half_even (x * s)) / s.

(** Python's [min(a, b)] and [max(a, b)] on two floats. *)
Definition py_min (a b : Q) : Q := if Qltb b a then b else a.
Definition py_max (a b : Q) : Q := if Qgtb b a then b else a.

(** [dict.get(k, default)] on a literal dict with string keys. *)
Fixpoint dict_lookup {A : Type} (k : string) (m : list (string * A)) : option A :=
  match m with
  | [] => None
  | (k', v) :: m' => if String.eqb k k' then Some v else dict_lookup k m'
  end.

Definition dict_get {A : Type} (m : list (string * A)) (k : string) (d : A) : A :=
  match dict_lookup k m with Some v => v | None => d end.

(* ------------------------------------------------------------------------- *)
(** * risk_service: data model *)

Inductive OrderType := BUY | SELL.
Inductive RiskLevel := LOW | MEDIUM | HIGH.

Definition OrderType_eqb (a b : OrderType) : bool :=
  match a, b with BUY, BUY | SELL, SELL => true | _, _ => false end.
Definition RiskLevel_eqb (a b : RiskLevel) : bool :=
  match a, b with
  | LOW, LOW | MEDIUM, MEDIUM | HIGH, HIGH => true
  | _, _ => false
  end.

(** [RiskAssessmentRequest] (pydantic: [price: float = Field(..., gt=0)]). *)
Record RiskAssessmentRequest := {
  rq_order_id : string;
  rq_symbol : string;
  rq_quantity : Z;
  rq_price : Q;
  rq_pnl : Q;
  rq_order_type : OrderType
}.

(** The numeric part of the [risk_factors] dict built by [calculate_risk_score]. *)
Record RiskFactors := {
  rf_position_value : Q;
  rf_position_size_risk : Z;
  rf_pnl_risk : Z;
  rf_quantity_risk : Z;
  rf_base_risk_score : Z;
  rf_volatility_multiplier : Q;
  rf_risk_after_volatility : Q;
  rf_risk_after_sector : Q;
  rf_total_risk_score : Q
}.

(* ------------------------------------------------------------------------- *)
(** * Risk Scoring Engine (risk_service/src/app.py) *)

Definition volatility_map : list (string * Q) :=
  [("TSLA", 25 # 10); ("NVDA", 2 # 1); ("META", 18 # 10); ("AMZN", 15 # 10);
   ("GOOGL", 13 # 10); ("AAPL", 12 # 10); ("MSFT", 12 # 10)].

Definition calculate_volatility_multiplier (symbol : string) : Q :=
  dict_get volatility_map symbol 1.

Definition calculate_position_size_impact (position_value : Q) : Z :=
  if Qgtb position_value 100000 then 30
  else if Qgtb position_value 50000 then 20
  else if Qgtb position_value 10000 then 10
  else 5.

Definition calculate_pnl_risk_factor (pnl : Q) (order_type : OrderType) : Z :=
  if Qltb pnl (-5000) then 30
  else if Qltb pnl (-1000) then 20
  else if Qltb pnl 0 then 10
  else if Qgtb pnl 10000 then 15
  else 5.

Definition assess_quantity_risk (quantity : Z) : Z :=
  if (quantity >? 500)%Z then 20
  else if (quantity >? 200)%Z then 15
  else if (quantity >? 100)%Z then 10
  else 5.

Definition sector_map : list (string * Q) :=
  [("TSLA", 13 # 10); ("NVDA", 125 # 100); ("META", 12 # 10); ("AAPL", 11 # 10);
   ("GOOGL", 11 # 10); ("MSFT", 105 # 100); ("AMZN", 115 # 100)].

Definition sector_multiplier (symbol : string) : Q := dict_get sector_map symbol 1.

Definition calculate_sector_risk_adjustment (symbol : string) (base_score : Q) : Q :=
  base_score * sector_multiplier symbol.

Definition normalize_risk_score (raw_score : Q) : Q :=
  let normalized := py_min raw_score 100 in
  let normalized := py_max normalized 0 in
  py_round normalized 3.

Definition calculate_risk_score (symbol : string) (quantity : Z) (price pnl : Q)
    (order_type : OrderType) : Q * RiskFactors :=
  let position_value := inject_Z quantity * price in
  let position_risk := calculate_position_size_impact position_value in
  let pnl_risk := calculate_pnl_risk_factor pnl order_type in
  let quantity_risk := assess_quantity_risk quantity in
  let base_risk_score := (position_risk + pnl_risk + quantity_risk)%Z in
  let volatility_multiplier := calculate_volatility_multiplier symbol in
  let risk_after_volatility := inject_Z base_risk_score * volatility_multiplier in
  let risk_after_sector := calculate_sector_risk_adjustment symbol risk_after_volatility in
  let final_risk_score := normalize_risk_score risk_after_sector in
  (final_risk_score,
   {| rf_position_value := py_round position_value 3;
      rf_position_size_risk := position_risk;
      rf_pnl_risk := pnl_risk;
      rf_quantity_risk := quantity_risk;
      rf_base_risk_score := base_risk_score;
      rf_volatility_multiplier := volatility_multiplier;
      rf_risk_after_volatility := py_round risk_after_volatility 3;
      rf_risk_after_sector := py_round risk_after_sector 3;
      rf_total_risk_score := final_risk_score |}).

Definition determine_risk_level (risk_score : Q) : RiskLevel :=
  if Qgeb risk_score 70 then HIGH
  else if Qgeb risk_score 40 then MEDIUM
  else LOW.

(** The ordering LOW < MEDIUM < HIGH of the levels. *)
Definition level_rank (l : RiskLevel) : nat :=
  match l with LOW => 0 | MEDIUM => 1 | HIGH => 2 end.

(* ------------------------------------------------------------------------- *)
(** * Compliance pre-check and the [/risk/assess] endpoint *)

(** The local list [restricted_stocks = []] of [validate_compliance_rules]. *)
Definition restricted_stocks : list string := [].

Inductive ComplianceFailure :=
  | TradeLimitExceeded (position_value : Q)
  | SymbolRestricted (symbol : string).

(** [validate_compliance_rules]: [None] is [(True, None)]. *)
Definition validate_compliance_rules (symbol : string) (quantity : Z) (price : Q)
    (order_type : OrderType) : option ComplianceFailure :=
  let position_value := inject_Z quantity * price in
  if Qgtb position_value 500000 then Some (TradeLimitExceeded position_value)
  else if existsb (String.eqb symbol) restricted_stocks then Some (SymbolRestricted symbol)
  else None.

Definition expected_cost_basis_map : list (string * Q) :=
  [("AAPL", 165); ("GOOGL", 135); ("MSFT", 360); ("AMZN", 145);
   ("TSLA", 230); ("META", 340); ("NVDA", 475)].

(** The expected PnL recomputed by [assess_risk] from its own cost-basis table
    ([round(expected_pnl, 2)]). *)
Definition expected_pnl (symbol : string) (quantity : Z) (price : Q)
    (order_type : OrderType) : Q :=
  let expected_cost_basis := dict_get expected_cost_basis_map symbol 50 in
  let e :=
    match order_type with
    | BUY => - ((price - expected_cost_basis) * inject_Z quantity)
    | SELL => (price - expected_cost_basis) * inject_Z quantity
    end in
  py_round e 2.

(** Errors raised inside the [try] block of [assess_risk].  All of them are
    caught by its [except Exception] clause and re-raised as HTTP 500
    ["Risk assessment failed: ..."] carrying the inner error's text. *)
Inductive RiskError :=
  | ComplianceViolation (f : ComplianceFailure)          (* HTTP 403 *)
  | PnlMismatch (symbol : string) (expected_cost_basis expected_pnl actual_pnl difference : Q)
                                                          (* HTTP 422 *)
  | SellLossViolation (quantity : Z) (price pnl loss_percentage : Q)  (* HTTP 422 *)
  | PnlIntegrityViolation (pnl position_value : Q)        (* HTTP 422 *)
  | ZeroDivision.                                         (* ZeroDivisionError *)

(** The errors of the Consistency Validator (spec 4.3, steps 2 to 4). *)
Definition is_consistency_violation (e : RiskError) : bool :=
  match e with
  | PnlMismatch _ _ _ _ _ | SellLossViolation _ _ _ _ | PnlIntegrityViolation _ _ => true
  | _ => false
  end.

Definition inner_status_code (e : RiskError) : option Z :=
  match e with
  | ComplianceViolation _ => Some 403%Z
  | PnlMismatch _ _ _ _ _ | SellLossViolation _ _ _ _ | PnlIntegrityViolation _ _ => Some 422%Z
  | ZeroDivision => None
  end.

Record RiskAssessmentResponse := {
  ra_order_id : string;
  ra_risk_level : RiskLevel;
  ra_approved : bool;
  ra_risk_score : Q;
  ra_risk_factors : RiskFactors
}.

Inductive RiskOutcome :=
  | RiskOk (r : RiskAssessmentResponse)
  | RiskFailed (status_code : Z) (cause : RiskError).

(** [assess_risk] after request validation (the body of its [try] block,
    with the catch-all [except Exception] turning every error into HTTP 500).
    The call to [assess_order_risk] only logs, and [check_sector_limits]
    always returns [(True, None)]; neither influences the result. *)
Definition assess_risk (rq : RiskAssessmentRequest) : RiskOutcome :=
  let symbol := rq_symbol rq in
  let quantity := rq_quantity rq in
  let price := rq_price rq in
  let pnl := rq_pnl rq in
  match validate_compliance_rules symbol quantity price (rq_order_type rq) with
  | Some f => RiskFailed 500 (ComplianceViolation f)
  | None =>
    let position_value := Qabs (inject_Z quantity * price) in
    let pnl_ratio := if Qgtb position_value 0 then Qabs pnl / position_value else 0 in
    let expected_cost_basis := dict_get expected_cost_basis_map symbol 50 in
    let expected_pnl := expected_pnl symbol quantity price (rq_order_type rq) in
    let pnl_difference := Qabs (expected_pnl - pnl) in
    if Qgtb pnl_difference (1 # 10) then
      RiskFailed 500 (PnlMismatch symbol expected_cost_basis expected_pnl pnl pnl_difference)
    else
    let sell_check :=
      if OrderType_eqb (rq_order_type rq) SELL && Qltb pnl 0 then
        if Qeq_bool position_value 0 then Some ZeroDivision
        else
          let loss_percentage := Qabs pnl / position_value * 100 in
          if Qgtb loss_percentage 15
          then Some (SellLossViolation quantity price pnl loss_percentage)
          else None
      else None in
    match sell_check with
    | Some e => RiskFailed 500 e
    | None =>
      if Qgtb pnl_ratio (15 # 100) then RiskFailed 500 (PnlIntegrityViolation pnl position_value)
      else
        let (risk_score, risk_factors) :=
          calculate_risk_score symbol quantity price pnl (rq_order_type rq) in
        let risk_level := determine_risk_level risk_score in
        let approved := negb (RiskLevel_eqb risk_level HIGH) in
        RiskOk {| ra_order_id := rq_order_id rq; ra_risk_level := risk_level;
                  ra_approved := approved; ra_risk_score := risk_score;
                  ra_risk_factors := risk_factors |}
    end
  end.

(** The endpoint: pydantic rejects [price <= 0] with HTTP 422 before the
    handler runs. *)
Definition assess_risk_endpoint (rq : RiskAssessmentRequest) : RiskOutcome + Z :=
  if Qle_bool (rq_price rq) 0 then inr 422%Z else inl (assess_risk rq).

(* ------------------------------------------------------------------------- *)
(** * Lightweight pre-trade check of the Algorithmic workflow (risk_service) *)

(** The JSON body read by [pre_trade_check] through [data.get(...)].  The
    orchestrator sends [order_id], [symbol], [quantity], [price] and
    [strategy_id]; a body may carry any other field (a PnL, a side), which
    the handler never reads. *)
Record PreTradeRequest := {
  pt_order_id : string;
  pt_symbol : string;
  pt_quantity : Z;
  pt_price : option Q;
  pt_pnl : option Q;
  pt_order_type : option OrderType;
  pt_strategy_id : option string
}.

Record PreTradeRisk := {
  passes : bool;
  quick_risk_score : Q
}.

Definition verify_pre_trade_risk (symbol : string) (quantity : Z) (strategy_id : string)
    : PreTradeRisk :=
  let quick_score := inject_Z quantity / 1000 * 5 in
  {| passes := Qle_bool quick_score 50; quick_risk_score := quick_score |}.

Definition active_strategies : list string := ["MOMENTUM_v2"; "ARBITRAGE_v3"].

Definition check_strategy_correlation (strategy_id symbol : string) : bool :=
  existsb (String.eqb strategy_id) active_strategies
  && String.eqb symbol "TSLA"
  && (1 <? length active_strategies)%nat.

Record PreTradeResponse := {
  ptr_approved : bool;
  ptr_quick_risk_score : Q;
  ptr_correlation_warning : bool;
  ptr_strategy_id : string
}.

Definition pre_trade_check (data : PreTradeRequest) : PreTradeResponse :=
  let strategy_id := match pt_strategy_id data with Some s => s | None => "MOMENTUM_v2" end in
  let pre_trade_result := verify_pre_trade_risk (pt_symbol data) (pt_quantity data) strategy_id in
  let high_correlation := check_strategy_correlation strategy_id (pt_symbol data) in
  {| ptr_approved := passes pre_trade_result && negb high_correlation;
     ptr_quick_risk_score := quick_risk_score pre_trade_result;
     ptr_correlation_warning := high_correlation;
     ptr_strategy_id := strategy_id |}.

(* ------------------------------------------------------------------------- *)
(** * pricing_pnl_service *)

Definition cost_basis_table : list (string * Q) :=
  [("AAPL", 165); ("GOOGL", 135); ("MSFT", 360); ("AMZN", 145);
   ("TSLA", 230); ("META", 340); ("NVDA", 475)].

Definition get_cost_basis (symbol : string) : Q := dict_get cost_basis_table symbol 50.

Definition calculate_estimated_pnl (symbol : string) (quantity : Z) (price : Q)
    (order_type : OrderType) : Q :=
  let cost_basis := get_cost_basis symbol in
  let price_diff :=
    if String.eqb symbol "MSFT" then
      let actual_cost_basis_used := 350 in price - actual_cost_basis_used
    else price - cost_basis in
  let pnl :=
    match order_type with
    | BUY => - (price_diff * inject_Z quantity)
    | SELL => price_diff * inject_Z quantity
    end in
  py_round pnl 2.

(** The sign convention of the spec (section 3), over the canonical table. *)
Definition spec_estimated_pnl (symbol : string) (quantity : Z) (price : Q)
    (order_type : OrderType) : Q :=
  match order_type with
  | BUY => - ((price - get_cost_basis symbol) * inject_Z quantity)
  | SELL => (price - get_cost_basis symbol) * inject_Z quantity
  end.

Definition algo_base_prices : list (string * Q) :=
  [("AAPL", 1755 # 10); ("GOOGL", 14025 # 100); ("MSFT", 3789 # 10);
   ("AMZN", 15275 # 100); ("TSLA", 2428 # 10); ("META", 3562 # 10);
   ("NVDA", 4956 # 10)].

Record AlgoPricingRequest := {
  ap_order_id : string;
  ap_symbol : string;
  ap_quantity : Z;
  ap_order_type : OrderType
}.

Record AlgoPricingResult := {
  apr_price : Q;
  apr_estimated_pnl : Q;
  apr_total_cost : Q;
  apr_commission : Q;
  apr_fees : Q;
  apr_base_amount : Q
}.

Definition calculate_algo_pricing (data : AlgoPricingRequest) : AlgoPricingResult :=
  let price := dict_get algo_base_prices (ap_symbol data) 100 in
  let base_amount := inject_Z (ap_quantity data) * price in
  let commission := base_amount * (1 # 10000) in
  let fees := inject_Z (ap_quantity data) * (5 # 1000) in
  let total_cost :=
    match ap_order_type data with
    | BUY => base_amount + commission + fees
    | SELL => base_amount - commission - fees
    end in
  {| apr_price := price; apr_estimated_pnl := 0;
     apr_total_cost := py_round total_cost 2; apr_commission := py_round commission 2;
     apr_fees := py_round fees 2; apr_base_amount := py_round base_amount 2 |}.

(* ------------------------------------------------------------------------- *)
(** * Orchestrator: remote calls, saga state and responses *)

Record OrderRequest := {
  or_symbol : string;
  or_quantity : Z;
  or_order_type : OrderType
}.

Record TradeResult := {
  tr_valid : bool;
  tr_reason : option string;
  tr_normalized_quantity : option Z
}.

Record PricingResult := {
  pr_price : Q;
  pr_estimated_pnl : Q;
  pr_total_cost : Q
}.

Record ExecutionResult := { ex_status : string }.
Record EscalationResult := { es_auto_approved : bool }.
Record InstitutionalRisk := { ir_approved : bool; ir_risk_score : Q }.
Record AlgoRisk := { al_approved : bool; al_quick_risk_score : Q }.

(** What [call_service] does: return the JSON body, or raise an
    [HTTPException] with a status code (504 on timeout, the service's status
    on an HTTP error, 500 on any other failure). *)
Inductive CallResult (A : Type) :=
  | Ok (a : A)
  | HttpError (status_code : Z).
Arguments Ok {A} a.
Arguments HttpError {A} status_code.

Inductive Call := CValidate | CPricing | CRisk | CEscalate | CTaxAnalysis | CExecute.

(** The outcomes of the remote calls of one saga execution.  The retail risk
    stage is not an outcome here: it is the risk service model [assess_risk]
    reached through [env_risk_transport] ([Some code]: [call_service] raised
    with [code] before an answer, e.g. 504 on its 15 s timeout). *)
Record Env := {
  env_order_id : string;
  env_validate : CallResult TradeResult;
  env_validation_pricing : CallResult PricingResult;
  env_pricing : CallResult PricingResult;
  env_risk_transport : option Z;
  env_institutional_risk : CallResult InstitutionalRisk;
  env_algo_risk : CallResult AlgoRisk;
  env_escalate : CallResult EscalationResult;
  env_tax_analysis : CallResult unit;
  env_execute : CallResult ExecutionResult
}.

Definition retail_risk_call (env : Env) (rq : RiskAssessmentRequest)
    : CallResult RiskAssessmentResponse :=
  match env_risk_transport env with
  | Some code => HttpError code
  | None =>
    match assess_risk_endpoint rq with
    | inr code => HttpError code
    | inl (RiskOk r) => Ok r
    | inl (RiskFailed code _) => HttpError code
    end
  end.

Inductive Stage := Validation | PricingCalculation | RiskAssessment | Execution.

(** The local variables [trade_result], [pricing_result], [risk_result] of
    each workflow handler: [None] until the call returns. *)
Record SagaState (R : Type) := {
  trade_result : option TradeResult;
  pricing_result : option PricingResult;
  risk_result : option R
}.
Arguments trade_result {R} s.
Arguments pricing_result {R} s.
Arguments risk_result {R} s.
Arguments Build_SagaState {R} _ _ _.

Definition init_state {R : Type} : SagaState R := Build_SagaState None None None.

Inductive Status := EXECUTED | REJECTED | FAILED | PENDING_APPROVAL.

(** Sections of the [execution_flow] dict. *)
Inductive FlowSection (R : Type) :=
  | SecValidation (tr : TradeResult) (passed : bool)
  | SecPricing (pr : PricingResult)
  | SecRisk (r : R)
  | SecRiskTimeout
  | SecExecution (ex : ExecutionResult)
  | SecFailure (stage : Stage) (status_code : Z).
Arguments SecValidation {R} tr passed.
Arguments SecPricing {R} pr.
Arguments SecRisk {R} r.
Arguments SecRiskTimeout {R}.
Arguments SecExecution {R} ex.
Arguments SecFailure {R} stage status_code.

Record OrderResponse (R : Type) := {
  status : Status;
  execution_flow : list (FlowSection R)
}.
Arguments status {R} o.
Arguments execution_flow {R} o.
Arguments Build_OrderResponse {R} _ _.

(** An endpoint either returns an [OrderResponse] or lets FastAPI answer with
    an error status (the handlers' final [except Exception] re-raise). *)
Inductive Outcome (R : Type) :=
  | Respond (resp : OrderResponse R)
  | Raise (status_code : Z).
Arguments Respond {R} resp.
Arguments Raise {R} status_code.

(** ** A state and exception monad for the handlers' [try] blocks *)

Inductive Exc := HttpExc (status_code : Z) | PythonExc.

Definition Saga (R A : Type) : Type :=
  SagaState R * list Call -> (SagaState R * list Call) * (A + Exc).

Definition ret {R A : Type} (a : A) : Saga R A := fun s => (s, inl a).
Definition bind {R A B : Type} (m : Saga R A) (k : A -> Saga R B) : Saga R B :=
  fun s => match m s with
           | (s', inl a) => k a s'
           | (s', inr e) => (s', inr e)
           end.
Definition throw {R A : Type} (e : Exc) : Saga R A := fun s => (s, inr e).
Definition catch {R A : Type} (m : Saga R A) (h : Exc -> Saga R A) : Saga R A :=
  fun s => match m s with
           | (s', inl a) => (s', inl a)
           | (s', inr e) => h e s'
           end.

Notation "x <- m ;; k" := (bind m (fun x => k))
  (at level 61, m at next level, right associativity).
Notation "m ;;; k" := (bind m (fun _ => k)) (at level 61, right associativity).

Definition call {R A : Type} (c : Call) (r : CallResult A) : Saga R A :=
  fun '(st, calls) =>
    ((st, (calls ++ [c])%list),
     match r with Ok a => inl a | HttpError code => inr (HttpExc code) end).

Definition set_trade {R : Type} (tr : TradeResult) : Saga R unit :=
  fun '(st, calls) =>
    ((Build_SagaState (Some tr) (pricing_result st) (risk_result st), calls), inl tt).
Definition set_pricing {R : Type} (pr : PricingResult) : Saga R unit :=
  fun '(st, calls) =>
    ((Build_SagaState (trade_result st) (Some pr) (risk_result st), calls), inl tt).
Definition set_risk {R : Type} (r : R) : Saga R unit :=
  fun '(st, calls) =>
    ((Build_SagaState (trade_result st) (pricing_result st) (Some r), calls), inl tt).

(** ** [build_error_response] (the [except HTTPException] branch of
    [place_order] inlines the same code) *)

Definition determine_failure_stage {R : Type} (st : SagaState R) : Stage :=
  match trade_result st with
  | None => Validation
  | Some _ =>
    match pricing_result st with
    | None => PricingCalculation
    | Some _ => match risk_result st with None => RiskAssessment | Some _ => Execution end
    end
  end.

Definition error_execution_flow {R : Type} (st : SagaState R) (status_code : Z)
    : list (FlowSection R) :=
  (match trade_result st with Some tr => [SecValidation tr true] | None => [] end
   ++ match pricing_result st with Some pr => [SecPricing pr] | None => [] end
   ++ match risk_result st with Some r => [SecRisk r] | None => [] end
   ++ [SecFailure (determine_failure_stage st) status_code])%list.

Definition build_error_response {R : Type} (st : SagaState R) (status_code : Z)
    : OrderResponse R :=
  Build_OrderResponse FAILED (error_execution_flow st status_code).

(** Running a handler: the [try] body, then its [except HTTPException] and
    [except Exception] clauses. *)
Definition run_handler {R : Type} (body : Saga R (OrderResponse R))
    : Outcome R * SagaState R * list Call :=
  match body (init_state, []) with
  | ((st, calls), inl resp) => (Respond resp, st, calls)
  | ((st, calls), inr (HttpExc code)) => (Respond (build_error_response st code), st, calls)
  | ((st, calls), inr PythonExc) => (Raise 500, st, calls)
  end.

(* ------------------------------------------------------------------------- *)
(** * The three workflows of the orchestrator *)

(** ** WORKFLOW 1: [place_order] (Standard / retail) *)

(** Steps after the escalation sub-saga: the tax-analysis sub-saga, the risk
    gate and the execution. *)
Definition place_order_finish (env : Env) (order : OrderRequest) (tr : TradeResult)
    (pr : PricingResult) (rr : RiskAssessmentResponse)
    : Saga RiskAssessmentResponse (OrderResponse RiskAssessmentResponse) :=
  (if OrderType_eqb (or_order_type order) SELL && Qltb (pr_estimated_pnl pr) 0
   then _ <- call CTaxAnalysis (env_tax_analysis env) ;; ret tt
   else ret tt) ;;;
  if RiskLevel_eqb (ra_risk_level rr) HIGH && negb (ra_approved rr) then
    ret (Build_OrderResponse REJECTED [SecValidation tr true; SecPricing pr; SecRisk rr])
  else
    ex <- call CExecute (env_execute env) ;;
    ret (Build_OrderResponse EXECUTED
           [SecValidation tr true; SecPricing pr; SecRisk rr; SecExecution ex]).

(** The [risk_data] dict sent by [place_order] to [/risk/assess]. *)
Definition retail_risk_request (env : Env) (order : OrderRequest) (actual_quantity : Z)
    (pr : PricingResult) : RiskAssessmentRequest :=
  {| rq_order_id := env_order_id env; rq_symbol := or_symbol order;
     rq_quantity := actual_quantity; rq_price := pr_price pr;
     rq_pnl := pr_estimated_pnl pr; rq_order_type := or_order_type order |}.

Definition actual_quantity (tr : TradeResult) (order : OrderRequest) : Z :=
  match tr_normalized_quantity tr with Some q => q | None => or_quantity order end.

Definition place_order_body (env : Env) (order : OrderRequest)
    : Saga RiskAssessmentResponse (OrderResponse RiskAssessmentResponse) :=
  tr <- call CValidate (env_validate env) ;;
  set_trade tr ;;;
  if negb (tr_valid tr) then ret (Build_OrderResponse REJECTED [SecValidation tr false]) else
  let actual_quantity := actual_quantity tr order in
  validation_pricing_result <- call CPricing (env_validation_pricing env) ;;
  let validation_price := pr_price validation_pricing_result in
  pr <- call CPricing (env_pricing env) ;;
  set_pricing pr ;;;
  (* price_variance_pct = (price_variance / validation_price) * 100 *)
  if Qeq_bool validation_price 0 then throw PythonExc else
  let risk_data := retail_risk_request env order actual_quantity pr in
  risk_call <- catch (r <- call CRisk (retail_risk_call env risk_data) ;; ret (Some r))
                     (fun e => match e with
                               | HttpExc code => if (code =? 504)%Z then ret None else throw e
                               | PythonExc => throw e
                               end) ;;
  match risk_call with
  | None =>
    ret (Build_OrderResponse FAILED [SecValidation tr true; SecPricing pr; SecRiskTimeout])
  | Some rr =>
    set_risk rr ;;;
    escalation <- (if Qgtb (ra_risk_score rr) 75
                   then esc <- call CEscalate (env_escalate env) ;; ret (Some esc)
                   else ret None) ;;
    match escalation with
    | Some esc =>
      if negb (es_auto_approved esc) then ret (Build_OrderResponse PENDING_APPROVAL [])
      else place_order_finish env order tr pr rr
    | None => place_order_finish env order tr pr rr
    end
  end.

Definition place_order (env : Env) (order : OrderRequest)
    : Outcome RiskAssessmentResponse * SagaState RiskAssessmentResponse * list Call :=
  run_handler (place_order_body env order).

(** ** WORKFLOW 2: [place_institutional_order] *)

Definition place_institutional_order_body (env : Env) (order : OrderRequest)
    : Saga InstitutionalRisk (OrderResponse InstitutionalRisk) :=
  tr <- call CValidate (env_validate env) ;;
  set_trade tr ;;;
  if negb (tr_valid tr) then ret (Build_OrderResponse REJECTED []) else
  pr <- call CPricing (env_pricing env) ;;
  set_pricing pr ;;;
  rr <- call CRisk (env_institutional_risk env) ;;
  set_risk rr ;;;
  if negb (ir_approved rr) then ret (Build_OrderResponse REJECTED []) else
  ex <- call CExecute (env_execute env) ;;
  ret (Build_OrderResponse EXECUTED
         [SecValidation tr true; SecPricing pr; SecRisk rr; SecExecution ex]).

Definition place_institutional_order (env : Env) (order : OrderRequest)
    : Outcome InstitutionalRisk * SagaState InstitutionalRisk * list Call :=
  run_handler (place_institutional_order_body env order).

(** ** WORKFLOW 3: [place_algo_order] *)

Definition place_algo_order_body (env : Env) (order : OrderRequest)
    : Saga AlgoRisk (OrderResponse AlgoRisk) :=
  tr <- call CValidate (env_validate env) ;;
  set_trade tr ;;;
  if negb (tr_valid tr) then ret (Build_OrderResponse REJECTED []) else
  pr <- call CPricing (env_pricing env) ;;
  set_pricing pr ;;;
  rr <- call CRisk (env_algo_risk env) ;;
  set_risk rr ;;;
  if negb (al_approved rr) then ret (Build_OrderResponse REJECTED []) else
  ex <- call CExecute (env_execute env) ;;
  ret (Build_OrderResponse EXECUTED
         [SecValidation tr true; SecPricing pr; SecRisk rr; SecExecution ex]).

Definition place_algo_order (env : Env) (order : OrderRequest)
    : Outcome AlgoRisk * SagaState AlgoRisk * list Call :=
  run_handler (place_algo_order_body env order).

Definition outcome_status {R : Type} (o : Outcome R) : option Status :=
  match o with Respond resp => Some (status resp) | Raise _ => None end.

(* ------------------------------------------------------------------------- *)
(** * risk_service: helpers outside the [/risk/assess] path *)

(** [assess_order_risk]: the order-type specific risk points and the
    [factors] dict, in insertion order.  [assess_risk] calls it and discards
    the result. *)
Definition assess_order_risk (symbol : string) (quantity : Z) (price pnl : Q)
    (order_type : OrderType) : Z * list (string * Z) :=
  let position_value := inject_Z quantity * price in
  match order_type with
  | BUY =>
    let '(risk_points, factors) :=
      if Qgtb position_value 100000 then (15%Z, [("large_position_risk", 15%Z)])
      else (0%Z, []) in
    if Qltb pnl (-5000) then
      ((risk_points + 10)%Z, (factors ++ [("expensive_purchase_risk", 10%Z)])%list)
    else (risk_points, factors)
  | SELL =>
    let '(risk_points, factors) :=
      if Qltb pnl 0 then (20%Z, [("loss_realization_risk", 20%Z)])
      else (0%Z, []) in
    if Qgtb position_value 50000 then
      ((risk_points + 10)%Z, (factors ++ [("large_liquidation_risk", 10%Z)])%list)
    else (risk_points, factors)
  end.

(** [check_portfolio_concentration] (no caller in the service): the risk
    points and the rounded [concentration_pct] and [position_value]. *)
Definition check_portfolio_concentration (symbol : string) (quantity : Z) (price : Q)
    : Z * (Q * Q) :=
  let portfolio_value := 1000000 in
  let position_value := inject_Z quantity * price in
  let concentration := position_value / portfolio_value * 100 in
  let concentration_risk :=
    if Qgtb concentration 10 then 20%Z
    else if Qgtb concentration 5 then 10%Z
    else 0%Z in
  (concentration_risk, (py_round concentration 3, py_round position_value 3)).

Definition volatile_symbols : list (string * Z) :=
  [("TSLA", 20%Z); ("NVDA", 15%Z); ("META", 10%Z)].

(** [calculate_risk_score_OLD] (replaced by [calculate_risk_score], no
    caller): its [risk_score], the plain sum of four tiered factors. *)
Definition calculate_risk_score_OLD (symbol : string) (quantity : Z) (price pnl : Q)
    (order_type : OrderType) : Z :=
  let risk_score := 0%Z in
  let position_value := inject_Z quantity * price in
  let position_risk :=
    if Qgtb position_value 100000 then 30%Z
    else if Qgtb position_value 50000 then 20%Z
    else if Qgtb position_value 10000 then 10%Z
    else 5%Z in
  let risk_score := (risk_score + position_risk)%Z in
  let pnl_risk :=
    if Qltb pnl (-5000) then 30%Z
    else if Qltb pnl (-1000) then 20%Z
    else if Qltb pnl 0 then 10%Z
    else if Qgtb pnl 10000 then 15%Z
    else 5%Z in
  let risk_score := (risk_score + pnl_risk)%Z in
  let quantity_risk :=
    if (quantity >? 500)%Z then 20%Z
    else if (quantity >? 200)%Z then 15%Z
    else if (quantity >? 100)%Z then 10%Z
    else 5%Z in
  let risk_score := (risk_score + quantity_risk)%Z in
  let volatility_risk := dict_get volatile_symbols symbol 5%Z in
  (risk_score + volatility_risk)%Z.

(** ** The escalation endpoint [/risk/escalate] *)

(** The JSON scalars a request body may carry under a key. *)
Inductive PyVal := PyInt (z : Z) | PyFloat (q : Q) | PyStr (s : string).

(** The keys of the [risk_factors] dict built by [calculate_risk_score], in
    insertion order.  [/risk/assess] returns that dict unchanged and
    [place_order] forwards it to [/risk/escalate]. *)
Definition calculate_risk_score_keys : list string :=
  ["position_value"; "position_size_risk"; "position_risk_logic"; "pnl_risk";
   "estimated_pnl"; "pnl_risk_logic"; "quantity_risk"; "quantity";
   "quantity_risk_logic"; "base_risk_score"; "volatility_multiplier";
   "volatility_explanation"; "risk_after_volatility"; "sector_risk_adjustment";
   "risk_after_sector"; "total_risk_score"; "calculation_summary"].

Record EscalationDetails := {
  escalated : bool;
  reviewed_by : string;
  auto_approved : bool
}.

Definition escalate_to_risk_manager (order_id : string) (risk_score : Q) : EscalationDetails :=
  let auto_approved := Qltb risk_score 85 in
  {| escalated := true;
     reviewed_by := if auto_approved then "RiskManager_AI" else "RiskManager_Human_Required";
     auto_approved := auto_approved |}.

Record PortfolioImpact := {
  current_portfolio_value : Z;
  pi_position_value : Q;
  impact_pct : Q;
  estimated_volatility_increase : string
}.

Definition check_portfolio_impact (symbol : string) (quantity price : Q) : PortfolioImpact :=
  let position_value := quantity * price in
  {| current_portfolio_value := 1000000;
     pi_position_value := position_value;
     impact_pct := position_value / 1000000 * 100;
     estimated_volatility_increase :=
       if Qgtb position_value 100000 then "HIGH" else "MODERATE" |}.

(** [risk_factors.get(key, 0)] used as a number: [None] when the value is a
    string, on which [quantity * price] (or its [:.2f] formatting in the
    first log line of [check_portfolio_impact]) raises. *)
Definition get_number (d : list (string * PyVal)) (k : string) : option Q :=
  match dict_lookup k d with
  | None => Some 0
  | Some (PyInt z) => Some (inject_Z z)
  | Some (PyFloat q) => Some q
  | Some (PyStr _) => None
  end.

(** [require_manual_approval] only logs its [reason] and returns [False]. *)
Definition require_manual_approval (order_id : string) : bool := false.

Record EscalationResponse := {
  er_order_id : string;
  er_escalation : EscalationDetails;
  er_portfolio_impact : PortfolioImpact;
  er_auto_approved : bool;
  er_manual_approval_required : bool
}.

(** [escalate_high_risk_order]; [None] when it raises (a string quantity or
    price).  The symbol only reaches log lines. *)
Definition escalate_high_risk_order (order_id : string) (risk_score : Q)
    (risk_factors : list (string * PyVal)) : option EscalationResponse :=
  let escalation_result := escalate_to_risk_manager order_id risk_score in
  let symbol :=
    match dict_lookup "symbol" risk_factors with Some (PyStr s) => s | _ => "UNKNOWN" end in
  match get_number risk_factors "quantity", get_number risk_factors "price" with
  | Some quantity, Some price =>
    let portfolio_impact := check_portfolio_impact symbol quantity price in
    let manual_approval_required :=
      if negb (auto_approved escalation_result) then require_manual_approval order_id
      else false in
    Some {| er_order_id := order_id; er_escalation := escalation_result;
            er_portfolio_impact := portfolio_impact;
            er_auto_approved := auto_approved escalation_result;
            er_manual_approval_required := manual_approval_required |}
  | _, _ => None
  end.

(** ** The institutional risk endpoint [/risk/assess-institutional] *)

Definition aggregate_positions : list (string * Z) :=
  [("AAPL", 50000%Z); ("GOOGL", 30000%Z); ("MSFT", 45000%Z); ("AMZN", 25000%Z);
   ("TSLA", 15000%Z)].

Record AggregateCheck := {
  within_limits : bool;
  current_exposure : Z;
  new_exposure : Z;
  limit : Z
}.

Definition check_aggregate_exposure (symbol : string) (quantity : Z) : AggregateCheck :=
  let current_exposure := dict_get aggregate_positions symbol 0%Z in
  let new_exposure := (current_exposure + quantity)%Z in
  {| within_limits := (new_exposure <=? 100000)%Z;
     current_exposure := current_exposure;
     new_exposure := new_exposure;
     limit := 100000 |}.

Record RegulatoryCheck := {
  is_compliant : bool;
  requires_13f : bool;
  requires_13d : bool;
  compliance_issues : list string;
  total_value : Q
}.

Definition assess_regulatory_risk (symbol : string) (quantity : Z) (price : Q)
    : RegulatoryCheck :=
  let total_value := inject_Z quantity * price in
  let requires_13f := Qgtb total_value 500000 in
  let requires_13d := (quantity >? 50000)%Z in
  let compliance_issues :=
    ((if requires_13f then ["Form 13F filing required"] else [])
     ++ (if requires_13d then ["Form 13D beneficial ownership disclosure required"] else []))%list in
  {| is_compliant := Nat.eqb (length compliance_issues) 0;
     requires_13f := requires_13f;
     requires_13d := requires_13d;
     compliance_issues := compliance_issues;
     total_value := total_value |}.

Record InstitutionalAssessment := {
  ia_order_id : string;
  ia_approved : bool;
  ia_risk_score : Q;
  ia_aggregate_exposure : AggregateCheck;
  ia_regulatory_compliance : RegulatoryCheck;
  ia_risk_factors : RiskFactors
}.

Definition assess_institutional_risk (order_id symbol : string) (quantity : Z)
    (price estimated_pnl : Q) (order_type : OrderType) : InstitutionalAssessment :=
  let (risk_score, risk_factors) :=
    calculate_risk_score symbol quantity price estimated_pnl order_type in
  let aggregate_check := check_aggregate_exposure symbol quantity in
  let regulatory_check := assess_regulatory_risk symbol quantity price in
  let approved :=
    Qle_bool risk_score 70 && within_limits aggregate_check
    && is_compliant regulatory_check in
  {| ia_order_id := order_id; ia_approved := approved; ia_risk_score := risk_score;
     ia_aggregate_exposure := aggregate_check;
     ia_regulatory_compliance := regulatory_check;
     ia_risk_factors := risk_factors |}.

(* ------------------------------------------------------------------------- *)
(** * pricing_pnl_service: market price, cost breakdown and tax analysis *)

(** The exceptions raised inside the pricing service. *)
Inductive PyExc := ValueError | ZeroDivisionError | HTTPException (status_code : Z).

Definition and_then {A B : Type} (m : A + PyExc) (k : A -> B + PyExc) : B + PyExc :=
  match m with inl a => k a | inr e => inr e end.

Definition verify_market_conditions (symbol : string) (price : Q) : bool + PyExc :=
  if Qle_bool price 0 then inr ValueError else inl true.

Definition check_price_range_validity (symbol : string) (price base_price : Q)
    : bool + PyExc :=
  if Qeq_bool base_price 0 then inr ZeroDivisionError else
  let variance_pct := Qabs (price - base_price) / base_price * 100 in
  if Qgtb variance_pct 10 then inr ValueError
  else verify_market_conditions symbol price.

Definition validate_price_components (symbol : string) (base_price variance : Q)
    : Q + PyExc :=
  let calculated_price := base_price * (1 + variance) in
  let final_price := py_round calculated_price 2 in
  and_then (check_price_range_validity symbol final_price base_price)
    (fun _ => inl final_price).

Definition restricted_symbols : list string := ["GME"; "AMC"].

Definition base_prices : list (string * Q) :=
  [("AAPL", 1755 # 10); ("GOOGL", 14025 # 100); ("MSFT", 3789 # 10);
   ("AMZN", 15275 # 100); ("TSLA", 2428 # 10); ("META", 3562 # 10);
   ("NVDA", 4956 # 10)].

(** [get_market_price]; [variance] is the draw of
    [random.uniform(-0.02, 0.02)]. *)
Definition get_market_price (symbol : string) (variance : Q) : Q + PyExc :=
  if existsb (String.eqb symbol) restricted_symbols then inr (HTTPException 503)
  else
    match dict_lookup symbol base_prices with
    | None => inr ValueError
    | Some base_price => validate_price_components symbol base_price variance
    end.

Definition audit_commission_rate (commission base_amount : Q) : bool + PyExc :=
  if Qltb base_amount (1 # 100) then inl true else
  let actual_rate := commission / base_amount in
  let expected_rate := 5 # 1000 in
  if Qgtb (Qabs (actual_rate - expected_rate)) (1 # 1000) then inr ValueError
  else inl true.

Definition verify_fee_calculations (fees : Q) (quantity : Z) (order_type : OrderType)
    : bool + PyExc :=
  match order_type with
  | BUY =>
    let expected_fees := inject_Z quantity * (1 # 100) in
    if Qgtb (Qabs (fees - expected_fees)) (1 # 100) then inr ValueError else inl true
  | SELL => if Qltb fees 0 then inr ValueError else inl true
  end.

Definition validate_cost_breakdown (base_amount commission fees total : Q)
    (order_type : OrderType) (quantity : Z) : bool + PyExc :=
  and_then (verify_fee_calculations fees quantity order_type) (fun _ =>
  and_then (audit_commission_rate commission base_amount) (fun _ =>
  let expected_total :=
    match order_type with
    | BUY => base_amount + commission + fees
    | SELL => base_amount - commission - fees
    end in
  if Qgtb (Qabs (total - expected_total)) (1 # 100) then inr ValueError else inl true)).

Record CostBreakdown := {
  base_amount : Q;
  commission : Q;
  fees : Q;
  total_cost : Q
}.

Definition calculate_total_cost (quantity : Z) (price : Q) (symbol : string)
    (order_type : OrderType) : CostBreakdown + PyExc :=
  match order_type with
  | BUY =>
    let base_cost := inject_Z quantity * price in
    let commission := base_cost * (5 # 1000) in
    let exchange_fee := inject_Z quantity * (1 # 100) in
    let total_cost := base_cost + commission + exchange_fee in
    and_then (validate_cost_breakdown base_cost commission exchange_fee total_cost BUY quantity)
      (fun _ => inl {| base_amount := base_cost; commission := commission;
                       fees := exchange_fee; total_cost := total_cost |})
  | SELL =>
    let gross_proceeds := inject_Z quantity * price in
    let commission := gross_proceeds * (5 # 1000) in
    let sec_fee := gross_proceeds * (207 # 10000000) in
    let commission :=
      if (quantity >? 200)%Z && existsb (String.eqb symbol) ["TSLA"; "NVDA"]
      then let extra_fee := gross_proceeds * (2 # 100) in commission + extra_fee
      else commission in
    let net_proceeds := gross_proceeds - commission - sec_fee in
    and_then (validate_cost_breakdown gross_proceeds commission sec_fee net_proceeds SELL quantity)
      (fun _ => inl {| base_amount := gross_proceeds; commission := commission;
                       fees := sec_fee; total_cost := net_proceeds |})
  end.

Record PricingRequest := {
  pq_order_id : string;
  pq_symbol : string;
  pq_quantity : Z;
  pq_order_type : OrderType
}.

Record PricingResponse := {
  ps_order_id : string;
  ps_symbol : string;
  ps_price : Q;
  ps_estimated_pnl : Q;
  ps_total_cost : Q;
  ps_commission : Q;
  ps_fees : Q;
  ps_base_amount : Q
}.

(** [calculate_pricing]: the response, or the HTTP status it raises.  The
    first [try] turns a [ValueError] of [get_market_price] into 404 and lets
    its [HTTPException] through; the second turns every other error into
    500.  [order_value] is only logged. *)
Definition calculate_pricing (request_data : PricingRequest) (variance : Q)
    : PricingResponse + Z :=
  let symbol := pq_symbol request_data in
  let quantity := pq_quantity request_data in
  let order_type := pq_order_type request_data in
  match get_market_price symbol variance with
  | inr ValueError => inr 404%Z
  | inr ZeroDivisionError => inr 500%Z
  | inr (HTTPException code) => inr code
  | inl current_price =>
    let order_value := current_price * inject_Z quantity in
    let order_value :=
      if (quantity >? 500)%Z then order_value * (98 # 100) else order_value in
    match calculate_total_cost quantity current_price symbol order_type with
    | inr (HTTPException code) => inr code
    | inr _ => inr 500%Z
    | inl cost_breakdown =>
      let estimated_pnl := calculate_estimated_pnl symbol quantity current_price order_type in
      inl {| ps_order_id := pq_order_id request_data; ps_symbol := symbol;
             ps_price := current_price; ps_estimated_pnl := estimated_pnl;
             ps_total_cost := total_cost cost_breakdown;
             ps_commission := commission cost_breakdown;
             ps_fees := fees cost_breakdown;
             ps_base_amount := base_amount cost_breakdown |}
    end
  end.

(** ** The tax-analysis endpoint [/pricing/tax-analysis] *)

Record TaxCalculation := {
  capital_loss : Q;
  tax_bracket : Q;
  estimated_tax_benefit : Q;
  loss_type : string;
  deduction_limit : Z
}.

Definition calculate_tax_implications (symbol : string) (pnl : Q) (quantity : Z)
    : TaxCalculation :=
  let capital_loss := Qabs pnl in
  let tax_bracket := 24 # 100 in
  let tax_benefit := capital_loss * tax_bracket in
  {| capital_loss := capital_loss; tax_bracket := tax_bracket;
     estimated_tax_benefit := py_round tax_benefit 2;
     loss_type := if (quantity >? 100)%Z then "SHORT_TERM" else "LONG_TERM";
     deduction_limit := 3000 |}.

(** [check_wash_sale_rule] ([warning] is [None]). *)
Record WashSaleCheck := {
  wash_sale_risk : bool;
  recent_buys_within_30_days : Z
}.

Definition check_wash_sale_rule (symbol : string) (quantity : Z) : WashSaleCheck :=
  {| wash_sale_risk := false; recent_buys_within_30_days := 0 |}.

Record CostBasisVerification := {
  verified_cost_basis : Q;
  purchase_lot_method : string;
  lots_affected : Z;
  accuracy_confirmed : bool
}.

Definition verify_cost_basis_accuracy (symbol : string) (quantity : Z) : CostBasisVerification :=
  let cost_basis := get_cost_basis symbol in
  {| verified_cost_basis := cost_basis; purchase_lot_method := "FIFO";
     lots_affected := 2; accuracy_confirmed := true |}.

Record TaxAnalysis := {
  ta_order_id : string;
  ta_symbol : string;
  ta_pnl : Q;
  ta_tax_calculation : TaxCalculation;
  ta_wash_sale_check : WashSaleCheck;
  ta_cost_basis_verification : CostBasisVerification;
  ta_tax_benefit : Q
}.

Definition analyze_tax_implications (order_id symbol : string) (pnl : Q) (quantity : Z)
    : TaxAnalysis :=
  let tax_calc := calculate_tax_implications symbol pnl quantity in
  let wash_sale_check := check_wash_sale_rule symbol quantity in
  let cost_basis_verification := verify_cost_basis_accuracy symbol quantity in
  {| ta_order_id := order_id; ta_symbol := symbol; ta_pnl := pnl;
     ta_tax_calculation := tax_calc; ta_wash_sale_check := wash_sale_check;
     ta_cost_basis_verification := cost_basis_verification;
     ta_tax_benefit := estimated_tax_benefit tax_calc |}.

(** ** Institutional pricing [/pricing/calculate-institutional] *)

Definition apply_volume_discount (quantity : Z) (base_price : Q) : Q :=
  let discount :=
    if (quantity >=? 10000)%Z then 5 # 1000
    else if (quantity >=? 5000)%Z then 3 # 1000
    else if (quantity >=? 1000)%Z then 1 # 1000
    else 0 in
  let discounted_price := base_price * (1 - discount) in
  py_round discounted_price 2.

Record InstitutionalPricing := {
  ip_price : Q;
  ip_base_price : Q;
  ip_volume_discount : Q;
  ip_estimated_pnl : Q;
  ip_total_cost : Q;
  ip_commission : Q;
  ip_fees : Q;
  ip_base_amount : Q
}.

(** [calculate_institutional_pricing]: no [try]; an exception of
    [get_market_price] escapes the handler. *)
Definition calculate_institutional_pricing (symbol : string) (quantity : Z)
    (order_type : OrderType) (variance : Q) : InstitutionalPricing + PyExc :=
  and_then (get_market_price symbol variance) (fun base_price =>
  let institutional_price := apply_volume_discount quantity base_price in
  let base_amount := inject_Z quantity * institutional_price in
  let commission := base_amount * (1 # 1000) in
  let fees := inject_Z quantity * (1 # 100) in
  let total_cost :=
    match order_type with
    | BUY => base_amount + commission + fees
    | SELL => base_amount - commission - fees
    end in
  let estimated_pnl :=
    calculate_estimated_pnl symbol quantity institutional_price order_type in
  inl {| ip_price := institutional_price; ip_base_price := base_price;
         ip_volume_discount := base_price - institutional_price;
         ip_estimated_pnl := estimated_pnl;
         ip_total_cost := py_round total_cost 2; ip_commission := py_round commission 2;
         ip_fees := py_round fees 2; ip_base_amount := py_round base_amount 2 |}).

(** ** Call logs *)

Definition Call_eqb (a b : Call) : bool :=
  match a, b with
  | CValidate, CValidate | CPricing, CPricing | CRisk, CRisk
  | CEscalate, CEscalate | CTaxAnalysis, CTaxAnalysis | CExecute, CExecute => true
  | _, _ => false
  end.

(** [is_subseq xs ys]: [xs] is [ys] with some calls left out. *)
Fixpoint is_subseq (xs ys : list Call) : bool :=
  match xs, ys with
  | [], _ => true
  | _ :: _, [] => false
  | x :: xs', y :: ys' =>
    if Call_eqb x y then is_subseq xs' ys' else is_subseq xs ys'
  end.

(** The order in which [place_order] can issue its remote calls. *)
Definition retail_call_plan : list Call :=
  [CValidate; CPricing; CPricing; CRisk; CEscalate; CTaxAnalysis; CExecute].

(** The order in which [place_institutional_order] and [place_algo_order]
    can issue their remote calls. *)
Definition desk_call_plan : list Call := [CValidate; CPricing; CRisk; CExecute].

(* ------------------------------------------------------------------------- *)
(** * Concrete inputs used by the examples below *)

Definition sample_trade : TradeResult :=
  {| tr_valid := true; tr_reason := None; tr_normalized_quantity := Some 100%Z |}.
Definition sample_pricing : PricingResult :=
  {| pr_price := 1755 # 10; pr_estimated_pnl := -1050; pr_total_cost := 17640 |}.
Definition sample_env : Env :=
  {| env_order_id := "ord-1";
     env_validate := Ok sample_trade;
     env_validation_pricing := Ok sample_pricing;
     env_pricing := Ok sample_pricing;
     env_risk_transport := None;
     env_institutional_risk := Ok {| ir_approved := true; ir_risk_score := 30 |};
     env_algo_risk := Ok {| al_approved := true; al_quick_risk_score := 1 # 2 |};
     env_escalate := Ok {| es_auto_approved := true |};
     env_tax_analysis := Ok tt;
     env_execute := Ok {| ex_status := "EXECUTED" |} |}.
Definition sample_order : OrderRequest :=
  {| or_symbol := "AAPL"; or_quantity := 100; or_order_type := BUY |}.


(** A [/risk/assess] request body with a fixed order id. *)
Definition mk_risk_request (sym : string) (q : Z) (p pnl : Q) (ot : OrderType) : RiskAssessmentRequest :=
  {| rq_order_id := "x"; rq_symbol := sym; rq_quantity := q; rq_price := p; rq_pnl := pnl;
     rq_order_type := ot |}.


(** A SELL below cost basis: pricing quotes 100 for AAPL (cost basis 165),
    PnL [(100 - 165) * 100 = -6500], a 65% loss on the notional. *)
Definition sell_loss_pricing : PricingResult :=
  {| pr_price := 100; pr_estimated_pnl := -6500; pr_total_cost := 10000 |}.
Definition sell_loss_env : Env :=
  {| env_order_id := "ord-2";
     env_validate := Ok sample_trade;
     env_validation_pricing := Ok sell_loss_pricing;
     env_pricing := Ok sell_loss_pricing;
     env_risk_transport := None;
     env_institutional_risk := Ok {| ir_approved := true; ir_risk_score := 30 |};
     env_algo_risk := Ok {| al_approved := true; al_quick_risk_score := 1 # 2 |};
     env_escalate := Ok {| es_auto_approved := true |};
     env_tax_analysis := Ok tt;
     env_execute := Ok {| ex_status := "EXECUTED" |} |}.
Definition sell_loss_order : OrderRequest :=
  {| or_symbol := "AAPL"; or_quantity := 100; or_order_type := SELL |}.

(** The risk service does not answer within the 15 s deadline. *)
Definition risk_timeout_env : Env :=
  {| env_order_id := "ord-3";
     env_validate := Ok sample_trade;
     env_validation_pricing := Ok sample_pricing;
     env_pricing := Ok sample_pricing;
     env_risk_transport := Some 504%Z;
     env_institutional_risk := Ok {| ir_approved := true; ir_risk_score := 30 |};
     env_algo_risk := Ok {| al_approved := true; al_quick_risk_score := 1 # 2 |};
     env_escalate := Ok {| es_auto_approved := true |};
     env_tax_analysis := Ok tt;
     env_execute := Ok {| ex_status := "EXECUTED" |} |}.

(** A high-risk order: BUY 400 TSLA at 242.80 with PnL
    [-(242.80 - 230) * 400 = -5120], scored above the escalation threshold;
    [esc] is the answer of [/risk/escalate]. *)
Definition escalation_trade : TradeResult :=
  {| tr_valid := true; tr_reason := None; tr_normalized_quantity := Some 400%Z |}.
Definition escalation_pricing : PricingResult :=
  {| pr_price := 2428 # 10; pr_estimated_pnl := -5120; pr_total_cost := 97120 |}.
Definition escalation_env (esc : CallResult EscalationResult) : Env :=
  {| env_order_id := "ord-4";
     env_validate := Ok escalation_trade;
     env_validation_pricing := Ok escalation_pricing;
     env_pricing := Ok escalation_pricing;
     env_risk_transport := None;
     env_institutional_risk := Ok {| ir_approved := true; ir_risk_score := 30 |};
     env_algo_risk := Ok {| al_approved := true; al_quick_risk_score := 1 # 2 |};
     env_escalate := esc;
     env_tax_analysis := Ok tt;
     env_execute := Ok {| ex_status := "EXECUTED" |} |}.
Definition escalation_order : OrderRequest :=
  {| or_symbol := "TSLA"; or_quantity := 400; or_order_type := BUY |}.

(** A saga state only holds the output of a stage if every earlier stage's
    output is held as well. *)
Definition state_prefix_closed {R : Type} (st : SagaState R) : Prop :=
  (pricing_result st <> None -> trade_result st <> None) /\
  (risk_result st <> None -> pricing_result st <> None).

Example calculate_risk_score_tsla :
  fst (calculate_risk_score "TSLA" 100 (2428 # 10) (-6000) SELL) == 100.
Proof. vm_compute. reflexivity. Qed.

Example calculate_risk_score_aapl :
  fst (calculate_risk_score "AAPL" 100 (1755 # 10) (-1050) BUY) == 462 # 10.
Proof. vm_compute. reflexivity. Qed.

Example place_order_sample :
  outcome_status (fst (fst (place_order sample_env sample_order))) = Some EXECUTED.
Proof. vm_compute. reflexivity. Qed.

(* ------------------------------------------------------------------------- *)
(** * Boolean comparisons on [Q] *)

Lemma Qltb_true x y : Qltb x y = true -> x < y.
Proof.
  unfold Qltb. intro H. apply negb_true_iff in H.
  apply Qnot_le_lt. intro H'. apply Qle_bool_iff in H'. congruence.
Qed.

Lemma Qltb_false x y : Qltb x y = false -> y <= x.
Proof.
  unfold Qltb. intro H. apply negb_false_iff in H. apply Qle_bool_iff. exact H.
Qed.

Lemma Qle_bool_false x y : Qle_bool x y = false -> y < x.
Proof.
  intro H. apply Qnot_le_lt. intro H'. apply Qle_bool_iff in H'. congruence.
Qed.

Lemma Qltb_iff x y : Qltb x y = true <-> x < y.
Proof.
  split; [apply Qltb_true|].
  intro H. destruct (Qltb x y) eqn:E; [reflexivity|].
  apply Qltb_false in E. exfalso. apply (Qlt_not_le x y); assumption.
Qed.

Ltac qbool :=
  repeat match goal with
  | H : Qltb _ _ = true |- _ => apply Qltb_true in H
  | H : Qltb _ _ = false |- _ => apply Qltb_false in H
  | H : Qgtb _ _ = true |- _ => unfold Qgtb in H
  | H : Qgtb _ _ = false |- _ => unfold Qgtb in H
  | H : Qgeb _ _ = true |- _ => unfold Qgeb in H
  | H : Qgeb _ _ = false |- _ => unfold Qgeb in H
  | H : Qle_bool _ _ = true |- _ => apply Qle_bool_iff in H
  | H : Qle_bool _ _ = false |- _ => apply Qle_bool_false in H
  end.

(* ------------------------------------------------------------------------- *)
(** * Rounding *)

Lemma round_half_even_cases q :
  let f := Qfloor q in
  (round_half_even q = f \/ round_half_even q = (f + 1)%Z) /\
  (round_half_even q = (f + 1)%Z -> 1 # 2 <= q - inject_Z f) /\
  (round_half_even q = f -> q - inject_Z f <= 1 # 2).
Proof.
  intro f. unfold round_half_even. fold f.
  destruct (Qltb (q - inject_Z f) (1 # 2)) eqn:E1; qbool.
  - split; [left; reflexivity|]. split; [intro H; lia|]. intros _. lra.
  - destruct (Qltb (1 # 2) (q - inject_Z f)) eqn:E2; qbool.
    + split; [right; reflexivity|]. split; [intros _; lra|]. intro H; lia.
    + destruct (Z.even f).
      * split; [left; reflexivity|]. split; [intro H; lia|]. intros _; lra.
      * split; [right; reflexivity|]. split; [intros _; lra|]. intro H; lia.
Qed.

Lemma round_half_even_close q :
  q - (1 # 2) <= inject_Z (round_half_even q) <= q + (1 # 2).
Proof.
  pose proof (Qfloor_le q) as F1. pose proof (Qlt_floor q) as F2.
  rewrite inject_Z_plus in F2. change (inject_Z 1) with 1 in F2.
  destruct (round_half_even_cases q) as [[E|E] [H1 H2]]; rewrite E.
  - specialize (H2 E). split; lra.
  - specialize (H1 E). rewrite inject_Z_plus. change (inject_Z 1) with 1.
    split; lra.
Qed.

Lemma round_half_even_bounds q (lo hi : Z) :
  inject_Z lo <= q -> q <= inject_Z hi -> (lo <= round_half_even q <= hi)%Z.
Proof.
  intros Hlo Hhi.
  pose proof (Qfloor_le q) as Hf1. pose proof (Qlt_floor q) as Hf2.
  assert (Hlof : (lo <= Qfloor q)%Z)
    by (rewrite <- (Qfloor_Z lo); apply Qfloor_resp_le; exact Hlo).
  assert (Hfhi : (Qfloor q <= hi)%Z)
    by (rewrite <- (Qfloor_Z hi); apply Qfloor_resp_le; exact Hhi).
  destruct (round_half_even_cases q) as [[E|E] [H1 _]]; rewrite E; [lia|].
  specialize (H1 E).
  assert (Hlt : (Qfloor q < hi)%Z).
  { destruct (Z.lt_ge_cases (Qfloor q) hi) as [H|H]; [exact H|].
    assert (Heq : Qfloor q = hi) by lia. rewrite Heq in H1. lra. }
  lia.
Qed.

Lemma py_round3_bounds x : 0 <= x -> x <= 100 -> 0 <= py_round x 3 /\ py_round x 3 <= 100.
Proof.
  intros H0 H1. unfold py_round. simpl Z.of_nat.
  change (10 ^ 3)%Z with 1000%Z.
  destruct (round_half_even_bounds (x * inject_Z 1000) 0 100000) as [L U].
  - change (inject_Z 0) with 0. change (inject_Z 1000) with 1000. lra.
  - change (inject_Z 100000) with 100000. change (inject_Z 1000) with 1000. lra.
  - rewrite Zle_Qle in L, U.
    unfold Qdiv. split.
    + apply Qmult_le_0_compat; [exact L|]. unfold Qle; simpl; lia.
    + setoid_replace 100 with (inject_Z 100000 * / inject_Z 1000) by reflexivity.
      apply Qmult_le_compat_r; [exact U|]. unfold Qle; simpl; lia.
Qed.

Lemma normalize_risk_score_bounds raw :
  0 <= normalize_risk_score raw /\ normalize_risk_score raw <= 100.
Proof.
  unfold normalize_risk_score, py_min, py_max.
  destruct (Qltb 100 raw) eqn:E1; qbool;
    [destruct (Qgtb 0 100) eqn:E2 | destruct (Qgtb 0 raw) eqn:E2]; qbool;
    apply py_round3_bounds; lra.
Qed.

Lemma py_round3_close x : x - (1 # 2000) <= py_round x 3 /\ py_round x 3 <= x + (1 # 2000).
Proof.
  unfold py_round. simpl Z.of_nat. change (10 ^ 3)%Z with 1000%Z.
  change (inject_Z 1000) with 1000.
  pose proof (round_half_even_close (x * 1000)) as [L U].
  unfold Qdiv. change (/ 1000) with (1 # 1000). split; lra.
Qed.

(* ------------------------------------------------------------------------- *)
(** * Facts about the scoring tables *)

Lemma dict_get_ge {A : Type} (P : A -> Prop) (m : list (string * A)) k d :
  Forall (fun kv => P (snd kv)) m -> P d -> P (dict_get m k d).
Proof.
  intros Hm Hd. unfold dict_get.
  induction Hm as [|[k' v] m' Hv Hm' IH]; simpl; [exact Hd|].
  destruct (String.eqb k k'); [exact Hv | exact IH].
Qed.

Lemma volatility_multiplier_ge_1 symbol : 1 <= calculate_volatility_multiplier symbol.
Proof.
  apply (dict_get_ge (fun v => 1 <= v)); [|apply Qle_refl].
  repeat constructor; unfold Qle; simpl; lia.
Qed.

Lemma sector_multiplier_ge_1 symbol : 1 <= sector_multiplier symbol.
Proof.
  apply (dict_get_ge (fun v => 1 <= v)); [|apply Qle_refl].
  repeat constructor; unfold Qle; simpl; lia.
Qed.

Lemma calculate_risk_score_fst symbol quantity price pnl order_type :
  fst (calculate_risk_score symbol quantity price pnl order_type) =
  normalize_risk_score
    (inject_Z (calculate_position_size_impact (inject_Z quantity * price)
               + calculate_pnl_risk_factor pnl order_type + assess_quantity_risk quantity)
     * calculate_volatility_multiplier symbol * sector_multiplier symbol).
Proof. reflexivity. Qed.

Lemma calculate_risk_score_base symbol quantity price pnl order_type :
  rf_base_risk_score (snd (calculate_risk_score symbol quantity price pnl order_type)) =
  (calculate_position_size_impact (inject_Z quantity * price)
   + calculate_pnl_risk_factor pnl order_type + assess_quantity_risk quantity)%Z.
Proof. reflexivity. Qed.

Lemma position_size_impact_mono x y :
  x <= y -> (calculate_position_size_impact x <= calculate_position_size_impact y)%Z.
Proof.
  intro H. unfold calculate_position_size_impact.
  destruct (Qgtb x 100000) eqn:E1; destruct (Qgtb y 100000) eqn:E2;
  destruct (Qgtb x 50000) eqn:E3; destruct (Qgtb y 50000) eqn:E4;
  destruct (Qgtb x 10000) eqn:E5; destruct (Qgtb y 10000) eqn:E6;
  qbool; try lia; lra.
Qed.

Lemma position_size_impact_range x :
  (5 <= calculate_position_size_impact x <= 30)%Z.
Proof.
  unfold calculate_position_size_impact.
  destruct (Qgtb x 100000); [lia|]. destruct (Qgtb x 50000); [lia|].
  destruct (Qgtb x 10000); lia.
Qed.

Lemma pnl_risk_factor_range pnl ot : (5 <= calculate_pnl_risk_factor pnl ot <= 30)%Z.
Proof.
  unfold calculate_pnl_risk_factor.
  destruct (Qltb pnl (-5000)); [lia|]. destruct (Qltb pnl (-1000)); [lia|].
  destruct (Qltb pnl 0); [lia|]. destruct (Qgtb pnl 10000); lia.
Qed.

Lemma quantity_risk_range q : (5 <= assess_quantity_risk q <= 20)%Z.
Proof.
  unfold assess_quantity_risk.
  destruct (q >? 500)%Z; [lia|]. destruct (q >? 200)%Z; [lia|].
  destruct (q >? 100)%Z; lia.
Qed.

Lemma position_101_ge_100 price :
  (calculate_position_size_impact (inject_Z 100 * price)
   <= calculate_position_size_impact (inject_Z 101 * price))%Z.
Proof.
  destruct (Qlt_le_dec price 0) as [Hn|Hp].
  - unfold calculate_position_size_impact.
    change (inject_Z 100) with 100. change (inject_Z 101) with 101.
    destruct (Qgtb (100 * price) 100000) eqn:E1;
    destruct (Qgtb (100 * price) 50000) eqn:E2;
    destruct (Qgtb (100 * price) 10000) eqn:E3;
    destruct (Qgtb (101 * price) 100000) eqn:E4;
    destruct (Qgtb (101 * price) 50000) eqn:E5;
    destruct (Qgtb (101 * price) 10000) eqn:E6; qbool; try lia; lra.
  - apply position_size_impact_mono.
    change (inject_Z 100) with 100. change (inject_Z 101) with 101. lra.
Qed.

Lemma py_round_100 : py_round 100 3 == 100.
Proof. reflexivity. Qed.


(* ------------------------------------------------------------------------- *)
(** * Risk Scoring Engine: claims *)

(** C2: for every input the risk score of [calculate_risk_score] lies in
    [0, 100]; the clamp [normalize_risk_score] maps every raw score into
    [0, 100]. *)
Theorem risk_score_in_0_100 :
  (forall raw, 0 <= normalize_risk_score raw /\ normalize_risk_score raw <= 100) /\
  (forall symbol quantity price pnl order_type,
      0 <= fst (calculate_risk_score symbol quantity price pnl order_type) /\
      fst (calculate_risk_score symbol quantity price pnl order_type) <= 100).
Proof.
  split.
  - intro raw. apply normalize_risk_score_bounds.
  - intros. rewrite calculate_risk_score_fst. apply normalize_risk_score_bounds.
Qed.

(** C7 (as stated, refuted): two orders identical but for 100 versus 101
    shares can get the same final risk score, when both are clamped to 100:
    TSLA at 242.80 with PnL -6000. *)
Lemma quantity_boundary_same_score :
  fst (calculate_risk_score "TSLA" 100 (2428 # 10) (-6000) SELL)
  == fst (calculate_risk_score "TSLA" 101 (2428 # 10) (-6000) SELL).
Proof. vm_compute. reflexivity. Qed.

(** C7 (amended): the quantity factor has strict [>] tiers (20 above 500,
    15 in (200, 500], 10 in (100, 200], 5 otherwise; 5 at 100 and 10 at 101);
    for otherwise identical orders the 101-share order has a base score at
    least 5 higher and a final score never lower than the 100-share order,
    and strictly higher whenever its final score is below 100. *)
Theorem quantity_factor_tiers :
  (forall q, (500 < q)%Z -> assess_quantity_risk q = 20%Z) /\
  (forall q, (200 < q <= 500)%Z -> assess_quantity_risk q = 15%Z) /\
  (forall q, (100 < q <= 200)%Z -> assess_quantity_risk q = 10%Z) /\
  (forall q, (q <= 100)%Z -> assess_quantity_risk q = 5%Z) /\
  assess_quantity_risk 100 = 5%Z /\ assess_quantity_risk 101 = 10%Z /\
  (forall symbol price pnl ot,
     (rf_base_risk_score (snd (calculate_risk_score symbol 100 price pnl ot)) + 5
      <= rf_base_risk_score (snd (calculate_risk_score symbol 101 price pnl ot)))%Z /\
     fst (calculate_risk_score symbol 100 price pnl ot)
       <= fst (calculate_risk_score symbol 101 price pnl ot) /\
     (fst (calculate_risk_score symbol 101 price pnl ot) < 100 ->
      fst (calculate_risk_score symbol 100 price pnl ot)
        < fst (calculate_risk_score symbol 101 price pnl ot))).
Proof.
  unfold assess_quantity_risk.
  split; [intros q H; replace (q >? 500)%Z with true by lia; reflexivity|].
  split; [intros q H; replace (q >? 500)%Z with false by lia;
          replace (q >? 200)%Z with true by lia; reflexivity|].
  split; [intros q H; replace (q >? 500)%Z with false by lia;
          replace (q >? 200)%Z with false by lia;
          replace (q >? 100)%Z with true by lia; reflexivity|].
  split; [intros q H; replace (q >? 500)%Z with false by lia;
          replace (q >? 200)%Z with false by lia;
          replace (q >? 100)%Z with false by lia; reflexivity|].
  split; [reflexivity|]. split; [reflexivity|].
  intros symbol price pnl ot.
  rewrite !calculate_risk_score_base, !calculate_risk_score_fst.
  pose proof (position_101_ge_100 price) as Hpos.
  pose proof (position_size_impact_range (inject_Z 100 * price)).
  pose proof (pnl_risk_factor_range pnl ot).
  change (assess_quantity_risk 100) with 5%Z.
  change (assess_quantity_risk 101) with 10%Z.
  split; [lia|].
  set (b100 := (calculate_position_size_impact (inject_Z 100 * price)
                + calculate_pnl_risk_factor pnl ot + 5)%Z) in *.
  set (b101 := (calculate_position_size_impact (inject_Z 101 * price)
                + calculate_pnl_risk_factor pnl ot + 10)%Z) in *.
  pose proof (volatility_multiplier_ge_1 symbol) as Hv.
  pose proof (sector_multiplier_ge_1 symbol) as Hs.
  set (v := calculate_volatility_multiplier symbol) in *.
  set (m := sector_multiplier symbol) in *.
  assert (Hb : (15 <= b100 /\ b100 + 5 <= b101)%Z) by lia.
  destruct Hb as [Hb1 Hb2].
  rewrite Zle_Qle in Hb1, Hb2. rewrite inject_Z_plus in Hb2.
  change (inject_Z 15) with 15 in Hb1. change (inject_Z 5) with 5 in Hb2.
  set (B := inject_Z b100) in *. set (B' := inject_Z b101) in *.
  assert (HvM : 1 <= v * m) by (apply (Qle_trans _ (1 * 1)); [lra|];
                                  apply Qmult_le_compat_nonneg; lra).
  assert (Ha : 15 <= B * v * m).
  { rewrite <- Qmult_assoc. apply (Qle_trans _ (15 * 1)); [lra|].
    apply Qmult_le_compat_nonneg; lra. }
  assert (Hd : 5 <= B' * v * m - B * v * m).
  { setoid_replace (B' * v * m - B * v * m) with ((B' - B) * (v * m)) by ring.
    apply (Qle_trans _ (5 * 1)); [lra|]. apply Qmult_le_compat_nonneg; lra. }
  set (a := B * v * m) in *. set (b := B' * v * m) in *.
  unfold normalize_risk_score, py_min, py_max.
  destruct (Qltb 100 a) eqn:E1; destruct (Qltb 100 b) eqn:E2; qbool; try lra.
  - (* both clamped *)
    destruct (Qgtb 0 100) eqn:E3; qbool; [lra|].
    split; [apply Qle_refl|]. intro Hc. rewrite py_round_100 in Hc. lra.
  - (* only the 101-share order is clamped *)
    destruct (Qgtb 0 a) eqn:E3; destruct (Qgtb 0 100) eqn:E4; qbool; try lra.
    rewrite py_round_100.
    split; [apply (proj2 (py_round3_bounds a ltac:(lra) ltac:(lra)))|].
    intro Hc. exfalso. apply (Qlt_irrefl 100). exact Hc.
  - (* neither is clamped *)
    destruct (Qgtb 0 a) eqn:E3; destruct (Qgtb 0 b) eqn:E4; qbool; try lra.
    pose proof (py_round3_close a). pose proof (py_round3_close b).
    split; [lra|]. intros _. lra.
Qed.


(* ------------------------------------------------------------------------- *)
(** * Running the workflows symbolically *)

Ltac saga_red H :=
  cbv beta iota zeta delta [bind ret throw catch call set_trade set_pricing set_risk
    place_order place_order_body place_order_finish run_handler init_state trade_result pricing_result risk_result app
    place_institutional_order place_institutional_order_body
    place_algo_order place_algo_order_body build_error_response] in H.
Ltac saga_red_goal :=
  cbv beta iota zeta delta [bind ret throw catch call set_trade set_pricing set_risk
    place_order place_order_body place_order_finish run_handler init_state trade_result
    pricing_result risk_result app place_institutional_order place_institutional_order_body
    place_algo_order place_algo_order_body build_error_response].
Ltac saga_step H :=
  match type of H with
  | context [match ?x with Ok _ => _ | HttpError _ => _ end] => destruct x eqn:?
  | context [match ?x with Some _ => _ | None => _ end] => destruct x eqn:?
  | context [match ?x with RiskOk _ => _ | RiskFailed _ _ => _ end] => destruct x eqn:?
  | context [match ?x with inl _ => _ | inr _ => _ end] => destruct x eqn:?
  | context [if ?b then _ else _] => destruct b eqn:?
  end; saga_red H.

Ltac saga_split_goal :=
  repeat (match goal with
  | |- context [match ?x with Ok _ => _ | HttpError _ => _ end] => destruct x eqn:?
  | |- context [match ?x with Some _ => _ | None => _ end] => destruct x eqn:?
  | |- context [match ?x with inl _ => _ | inr _ => _ end] => destruct x eqn:?
  | |- context [if ?b then _ else _] => destruct b eqn:?
  end; saga_red_goal).

Ltac risk_cases :=
  repeat match goal with
  | |- context [if ?b then _ else _] => destruct b eqn:?
  | |- context [match ?x with Some _ => _ | None => _ end] => destruct x eqn:?
  | |- context [match ?x with (_, _) => _ end] => destruct x eqn:?
  end.

Lemma retail_risk_call_ok env rq r :
  retail_risk_call env rq = Ok r -> assess_risk rq = RiskOk r.
Proof.
  unfold retail_risk_call, assess_risk_endpoint.
  destruct (env_risk_transport env); [discriminate|].
  destruct (Qle_bool (rq_price rq) 0); [discriminate|].
  destruct (assess_risk rq); congruence.
Qed.

Lemma assess_risk_ok_inv rq r :
  assess_risk rq = RiskOk r ->
  validate_compliance_rules (rq_symbol rq) (rq_quantity rq) (rq_price rq) (rq_order_type rq)
    = None /\
  Qabs (expected_pnl (rq_symbol rq) (rq_quantity rq) (rq_price rq) (rq_order_type rq)
        - rq_pnl rq) <= 1 # 10 /\
  (OrderType_eqb (rq_order_type rq) SELL && Qltb (rq_pnl rq) 0 = true ->
     Qabs (rq_pnl rq) / Qabs (inject_Z (rq_quantity rq) * rq_price rq) * 100 <= 15) /\
  ra_order_id r = rq_order_id rq /\
  ra_risk_score r
    = fst (calculate_risk_score (rq_symbol rq) (rq_quantity rq) (rq_price rq) (rq_pnl rq)
             (rq_order_type rq)) /\
  ra_risk_level r = determine_risk_level (ra_risk_score r) /\
  ra_approved r = negb (RiskLevel_eqb (ra_risk_level r) HIGH).
Proof.
  unfold assess_risk. cbv zeta. intro H.
  destruct (validate_compliance_rules _ _ _ _) eqn:Ec; [discriminate|].
  destruct (Qgtb (Qabs (expected_pnl _ _ _ _ - _)) _) eqn:Ed; [discriminate|].
  destruct (OrderType_eqb (rq_order_type rq) SELL && Qltb (rq_pnl rq) 0) eqn:Es.
  - destruct (Qeq_bool _ 0) eqn:Ez; [discriminate|].
    destruct (Qgtb (Qabs (rq_pnl rq) / _ * 100) 15) eqn:El; [discriminate|].
    destruct (Qgtb (if Qgtb _ 0 then _ else _) _); [discriminate|].
    destruct (calculate_risk_score _ _ _ _ _) as [sc rf] eqn:Ecr.
    injection H as <-. cbn. qbool. repeat split; auto; rewrite Ecr; reflexivity.
  - destruct (Qgtb (if Qgtb _ 0 then _ else _) _); [discriminate|].
    destruct (calculate_risk_score _ _ _ _ _) as [sc rf] eqn:Ecr.
    injection H as <-. cbn. qbool.
    repeat split; auto; try (intro; discriminate); rewrite Ecr; reflexivity.
Qed.

Lemma retail_risk_approved env rq r :
  retail_risk_call env rq = Ok r ->
  RiskLevel_eqb (ra_risk_level r) HIGH && negb (ra_approved r) = false ->
  ra_approved r = true.
Proof.
  intros Hc Hg. apply retail_risk_call_ok, assess_risk_ok_inv in Hc.
  destruct Hc as (_ & _ & _ & _ & _ & _ & Ha). rewrite Ha in Hg |- *.
  destruct (RiskLevel_eqb (ra_risk_level r) HIGH); [discriminate | reflexivity].
Qed.

Lemma place_order_risk_inv env order o st calls rr :
  place_order env order = (o, st, calls) -> risk_result st = Some rr ->
  exists tr pr, trade_result st = Some tr /\ pricing_result st = Some pr /\
    assess_risk (retail_risk_request env order (actual_quantity tr order) pr) = RiskOk rr.
Proof.
  intros H Hr. saga_red H. repeat saga_step H.
  all: injection H as <- <- <-; cbn in Hr; try discriminate Hr.
  all: injection Hr as <-; do 2 eexists; repeat split; cbn; eauto using retail_risk_call_ok.
Qed.

Lemma place_order_no_risk env order o st calls :
  place_order env order = (o, st, calls) -> pricing_result st <> None -> risk_result st = None ->
  (outcome_status o = Some FAILED \/ o = Raise 500%Z) /\ ~ In CExecute calls.
Proof.
  intros H Hp Hr. saga_red H. repeat saga_step H.
  all: injection H as <- <- <-; cbn in Hp, Hr |- *;
    try (exfalso; apply Hp; reflexivity); try discriminate Hr.
  all: split; [first [left; reflexivity | right; reflexivity] | intuition discriminate].
Qed.

Lemma place_order_risk_fails env order o st calls tr pr :
  place_order env order = (o, st, calls) ->
  trade_result st = Some tr -> pricing_result st = Some pr ->
  (forall r, assess_risk (retail_risk_request env order (actual_quantity tr order) pr) <> RiskOk r) ->
  risk_result st = None /\ (outcome_status o = Some FAILED \/ o = Raise 500%Z) /\
  ~ In CExecute calls.
Proof.
  intros H Ht Hp Hf.
  assert (Hr : risk_result st = None).
  { destruct (risk_result st) as [rr|] eqn:Er; [|reflexivity].
    destruct (place_order_risk_inv _ _ _ _ _ _ H Er) as (tr' & pr' & Ht' & Hp' & Ha).
    rewrite Ht in Ht'. rewrite Hp in Hp'. injection Ht' as <-. injection Hp' as <-.
    exfalso. exact (Hf rr Ha). }
  split; [exact Hr|]. apply (place_order_no_risk env order o st calls H); [congruence | exact Hr].
Qed.

Lemma compliance_none rq :
  inject_Z (rq_quantity rq) * rq_price rq <= 500000 ->
  validate_compliance_rules (rq_symbol rq) (rq_quantity rq) (rq_price rq) (rq_order_type rq) = None.
Proof.
  intro H. unfold validate_compliance_rules. cbv zeta.
  destruct (Qgtb _ 500000) eqn:E; qbool; [lra|]. reflexivity.
Qed.

Lemma assess_risk_failed_500 rq c e : assess_risk rq = RiskFailed c e -> c = 500%Z.
Proof.
  unfold assess_risk. cbv zeta. risk_cases; intro H; try discriminate H; congruence.
Qed.

Lemma retail_risk_timeout env rq :
  retail_risk_call env rq = HttpError 504%Z -> env_risk_transport env = Some 504%Z.
Proof.
  unfold retail_risk_call, assess_risk_endpoint.
  destruct (env_risk_transport env); [congruence|].
  destruct (Qle_bool (rq_price rq) 0); [discriminate|].
  destruct (assess_risk rq) eqn:E; [discriminate|].
  apply assess_risk_failed_500 in E. congruence.
Qed.

Lemma sell_loss_fails_exact rq :
  rq_order_type rq = SELL -> rq_pnl rq < 0 ->
  0 < inject_Z (rq_quantity rq) * rq_price rq ->
  inject_Z (rq_quantity rq) * rq_price rq <= 500000 ->
  15 < Qabs (rq_pnl rq) / Qabs (inject_Z (rq_quantity rq) * rq_price rq) * 100 ->
  ((1 # 10) < Qabs (expected_pnl (rq_symbol rq) (rq_quantity rq) (rq_price rq) (rq_order_type rq)
                    - rq_pnl rq) ->
   assess_risk rq =
     RiskFailed 500
       (PnlMismatch (rq_symbol rq) (dict_get expected_cost_basis_map (rq_symbol rq) 50)
          (expected_pnl (rq_symbol rq) (rq_quantity rq) (rq_price rq) (rq_order_type rq))
          (rq_pnl rq)
          (Qabs (expected_pnl (rq_symbol rq) (rq_quantity rq) (rq_price rq) (rq_order_type rq)
                 - rq_pnl rq)))) /\
  (Qabs (expected_pnl (rq_symbol rq) (rq_quantity rq) (rq_price rq) (rq_order_type rq)
         - rq_pnl rq) <= 1 # 10 ->
   assess_risk rq =
     RiskFailed 500
       (SellLossViolation (rq_quantity rq) (rq_price rq) (rq_pnl rq)
          (Qabs (rq_pnl rq) / Qabs (inject_Z (rq_quantity rq) * rq_price rq) * 100))).
Proof.
  intros Hs Hn Hp Hc Hl.
  unfold assess_risk. rewrite (compliance_none rq Hc). cbv zeta.
  split; intro Hd.
  - destruct (Qgtb _ (1 # 10)) eqn:E; qbool; [reflexivity | lra].
  - destruct (Qgtb _ (1 # 10)) eqn:E; qbool; [lra|].
    rewrite Hs. cbn [OrderType_eqb andb].
    destruct (Qltb (rq_pnl rq) 0) eqn:E1; qbool; [|lra].
    destruct (Qeq_bool (Qabs (inject_Z (rq_quantity rq) * rq_price rq)) 0) eqn:Ez.
    { apply Qeq_bool_iff in Ez. rewrite Qabs_pos in Ez by lra. lra. }
    destruct (Qgtb (Qabs (rq_pnl rq) / Qabs (inject_Z (rq_quantity rq) * rq_price rq) * 100) 15)
      eqn:El; qbool; [reflexivity | lra].
Qed.

Lemma sell_loss_not_flagged rq c q p l pct :
  Qabs (rq_pnl rq) / Qabs (inject_Z (rq_quantity rq) * rq_price rq) * 100 <= 15 ->
  assess_risk rq <> RiskFailed c (SellLossViolation q p l pct).
Proof.
  intro Hl. unfold assess_risk. cbv zeta. risk_cases; try discriminate.
  all: qbool; try lra.
Qed.

Lemma retail_risk_call_failed env rq c e :
  env_risk_transport env = None -> 0 < rq_price rq -> assess_risk rq = RiskFailed c e ->
  retail_risk_call env rq = HttpError c.
Proof.
  intros Ht Hp Ha. unfold retail_risk_call, assess_risk_endpoint. rewrite Ht.
  destruct (Qle_bool (rq_price rq) 0) eqn:E; qbool; [lra|]. rewrite Ha. reflexivity.
Qed.

Lemma place_order_risk_error env order o st calls tr pr vp :
  place_order env order = (o, st, calls) ->
  trade_result st = Some tr -> pricing_result st = Some pr ->
  env_validation_pricing env = Ok vp -> ~ pr_price vp == 0 ->
  retail_risk_call env (retail_risk_request env order (actual_quantity tr order) pr) = HttpError 500%Z ->
  risk_result st = None /\ o = Respond (build_error_response st 500) /\
  determine_failure_stage st = RiskAssessment /\ calls = [CValidate; CPricing; CPricing; CRisk].
Proof.
  intros H Ht Hp Hv Hz Hr. saga_red H. repeat saga_step H.
  all: injection H as <- <- <-; cbn in Ht, Hp |- *; try discriminate Ht; try discriminate Hp.
  all: injection Ht as ->; injection Hp as ->.
  all: try congruence.
  all: try (injection Hv as <-; apply Qeq_bool_iff in Heqb0; contradiction).
  all: rewrite Hr in *; match goal with E : HttpError 500 = HttpError _ |- _ => injection E as <- end;
    try discriminate.
  all: repeat split.
Qed.

(* ------------------------------------------------------------------------- *)
(** * Risk level, compliance and the Consistency Validator: claims *)

(** C8: [determine_risk_level] returns HIGH iff the score is at least 70,
    MEDIUM iff it lies in [40, 70), LOW iff it is below 40; the mapping is
    monotonic under LOW < MEDIUM < HIGH; and every response of [assess_risk]
    carries the level of its score and [approved = (level <> HIGH)]. *)
Theorem risk_level_mapping :
  (forall s, determine_risk_level s = HIGH <-> 70 <= s) /\
  (forall s, determine_risk_level s = MEDIUM <-> 40 <= s /\ s < 70) /\
  (forall s, determine_risk_level s = LOW <-> s < 40) /\
  (forall s t, s <= t ->
     (level_rank (determine_risk_level s) <= level_rank (determine_risk_level t))%nat) /\
  (forall rq r, assess_risk rq = RiskOk r ->
     ra_risk_level r = determine_risk_level (ra_risk_score r) /\
     ra_approved r = negb (RiskLevel_eqb (ra_risk_level r) HIGH)).
Proof.
  unfold determine_risk_level, Qgeb.
  split; [|split; [|split; [|split]]].
  - intro s. destruct (Qle_bool 70 s) eqn:E1; [apply Qle_bool_iff in E1|apply Qle_bool_false in E1];
      [split; auto | destruct (Qle_bool 40 s); split; intro H; try discriminate; lra].
  - intro s. destruct (Qle_bool 70 s) eqn:E1; qbool.
    + split; [discriminate | lra].
    + destruct (Qle_bool 40 s) eqn:E2; qbool; split; intro H; try discriminate; try tauto; lra.
  - intro s. destruct (Qle_bool 70 s) eqn:E1; qbool; [split; [discriminate | lra]|].
    destruct (Qle_bool 40 s) eqn:E2; qbool; split; intro H; try discriminate; try reflexivity; lra.
  - intros s t H.
    destruct (Qle_bool 70 s) eqn:E1; destruct (Qle_bool 70 t) eqn:E2;
    destruct (Qle_bool 40 s) eqn:E3; destruct (Qle_bool 40 t) eqn:E4;
    qbool; cbn; try lia; lra.
  - intros rq r H. apply assess_risk_ok_inv in H. tauto.
Qed.

(** C5: the compliance pre-check runs first and fails closed: every request
    with notional above 500,000 fails with [TradeLimitExceeded], whatever its
    PnL and score would be (the 600,000 order of AAPL 3000 @ 200 among them);
    a symbol of [restricted_stocks] (empty) fails with [SymbolRestricted]; in
    the Standard saga such an order gets no risk result and is never
    executed. *)
Theorem compliance_precheck :
  (forall rq, 500000 < inject_Z (rq_quantity rq) * rq_price rq ->
     assess_risk rq =
       RiskFailed 500 (ComplianceViolation (TradeLimitExceeded (inject_Z (rq_quantity rq) * rq_price rq)))) /\
  (forall rq, inject_Z (rq_quantity rq) * rq_price rq <= 500000 ->
     In (rq_symbol rq) restricted_stocks ->
     assess_risk rq = RiskFailed 500 (ComplianceViolation (SymbolRestricted (rq_symbol rq)))) /\
  restricted_stocks = [] /\
  assess_risk (mk_risk_request "AAPL" 3000 200 0 BUY)
    = RiskFailed 500 (ComplianceViolation (TradeLimitExceeded 600000)) /\
  (forall env order o st calls tr pr,
     place_order env order = (o, st, calls) ->
     trade_result st = Some tr -> pricing_result st = Some pr ->
     500000 < inject_Z (actual_quantity tr order) * pr_price pr ->
     risk_result st = None /\ (outcome_status o = Some FAILED \/ o = Raise 500%Z) /\
     ~ In CExecute calls).
Proof.
  split; [|split; [|split; [|split]]].
  - intros rq H. unfold assess_risk, validate_compliance_rules. cbv zeta.
    destruct (Qgtb _ 500000) eqn:E; qbool; [reflexivity | lra].
  - intros rq _ Hin. destruct Hin.
  - reflexivity.
  - vm_compute. reflexivity.
  - intros env order o st calls tr pr H Ht Hp Hv.
    apply (place_order_risk_fails env order o st calls tr pr H Ht Hp).
    intros r Hr. apply assess_risk_ok_inv in Hr. destruct Hr as (Hr & _).
    unfold validate_compliance_rules in Hr. cbv zeta in Hr. cbn in Hr.
    destruct (Qgtb _ 500000) eqn:E in Hr; qbool; [discriminate | lra].
Qed.

(** C3 (as stated, refuted): a PnL differing from the recomputed expected
    PnL by far more than 0.10 does not yield a PnL mismatch when the order
    also breaks the 500,000 notional cap: the compliance failure comes
    first. *)
Lemma pnl_mismatch_preempted_by_compliance :
  (1 # 10) < Qabs (expected_pnl "AAPL" 3000 200 BUY - 0) /\
  assess_risk (mk_risk_request "AAPL" 3000 200 0 BUY)
    = RiskFailed 500 (ComplianceViolation (TradeLimitExceeded 600000)) /\
  is_consistency_violation (ComplianceViolation (TradeLimitExceeded 600000)) = false.
Proof.
  split; [unfold Qlt; vm_compute; reflexivity|].
  split; vm_compute; reflexivity.
Qed.

(** C3 (amended): once the compliance pre-check passes, a difference above
    0.10 between the recomputed expected PnL and the supplied PnL fails
    [assess_risk] with [PnlMismatch] naming the symbol, the cost basis, both
    values and the difference; a difference within 0.10 never yields
    [PnlMismatch]; every approved assessment has a difference within 0.10;
    and in the Standard saga an order whose priced PnL disagrees by more than
    0.10 gets no risk result, ends FAILED (or HTTP 500) and is never
    executed. *)
Theorem pnl_consistency_check :
  (forall rq,
     validate_compliance_rules (rq_symbol rq) (rq_quantity rq) (rq_price rq) (rq_order_type rq)
       = None ->
     (1 # 10) < Qabs (expected_pnl (rq_symbol rq) (rq_quantity rq) (rq_price rq) (rq_order_type rq)
                      - rq_pnl rq) ->
     assess_risk rq =
       RiskFailed 500
         (PnlMismatch (rq_symbol rq) (dict_get expected_cost_basis_map (rq_symbol rq) 50)
            (expected_pnl (rq_symbol rq) (rq_quantity rq) (rq_price rq) (rq_order_type rq))
            (rq_pnl rq)
            (Qabs (expected_pnl (rq_symbol rq) (rq_quantity rq) (rq_price rq) (rq_order_type rq)
                   - rq_pnl rq)))) /\
  (forall rq c s cb e a d,
     Qabs (expected_pnl (rq_symbol rq) (rq_quantity rq) (rq_price rq) (rq_order_type rq)
           - rq_pnl rq) <= 1 # 10 ->
     assess_risk rq <> RiskFailed c (PnlMismatch s cb e a d)) /\
  (forall rq r, assess_risk rq = RiskOk r ->
     Qabs (expected_pnl (rq_symbol rq) (rq_quantity rq) (rq_price rq) (rq_order_type rq)
           - rq_pnl rq) <= 1 # 10) /\
  (forall env order o st calls tr pr,
     place_order env order = (o, st, calls) ->
     trade_result st = Some tr -> pricing_result st = Some pr ->
     (1 # 10) < Qabs (expected_pnl (or_symbol order) (actual_quantity tr order) (pr_price pr)
                        (or_order_type order) - pr_estimated_pnl pr) ->
     risk_result st = None /\ (outcome_status o = Some FAILED \/ o = Raise 500%Z) /\
     ~ In CExecute calls).
Proof.
  split; [|split; [|split]].
  - intros rq Hc Hd. unfold assess_risk. rewrite Hc. cbv zeta.
    destruct (Qgtb _ (1 # 10)) eqn:E; qbool; [reflexivity | lra].
  - intros rq c s cb e a d Hd. unfold assess_risk. cbv zeta. risk_cases; try discriminate.
    all: qbool; try lra.
  - intros rq r H. apply assess_risk_ok_inv in H. tauto.
  - intros env order o st calls tr pr H Ht Hp Hd.
    apply (place_order_risk_fails env order o st calls tr pr H Ht Hp).
    intros r Hr. apply assess_risk_ok_inv in Hr. destruct Hr as (_ & Hr & _).
    unfold retail_risk_request in Hr; cbn [rq_symbol rq_quantity rq_price rq_pnl rq_order_type] in Hr. lra.
Qed.

(** C4 (as stated, refuted): a SELL at a 19% loss on a 526,500 notional
    fails with a compliance error, not a consistency violation; and a SELL at
    a 65% loss within the cap, which [assess_risk] fails with
    [SellLossViolation], ends FAILED in the Standard saga, not REJECTED. *)
Lemma sell_loss_outcomes :
  assess_risk (mk_risk_request "AAPL" 3000 (1755 # 10) (-100000) SELL)
    = RiskFailed 500 (ComplianceViolation (TradeLimitExceeded (inject_Z 3000 * (1755 # 10)))) /\
  15 < Qabs (-100000) / Qabs (inject_Z 3000 * (1755 # 10)) * 100 /\
  assess_risk (mk_risk_request "AAPL" 100 100 (-6500) SELL)
    = RiskFailed 500 (SellLossViolation 100 100 (-6500) (Qabs (-6500) / Qabs (inject_Z 100 * 100) * 100)) /\
  outcome_status (fst (fst (place_order sell_loss_env sell_loss_order))) = Some FAILED.
Proof.
  split; [vm_compute; reflexivity|]. split; [unfold Qlt; vm_compute; reflexivity|].
  split; vm_compute; reflexivity.
Qed.

(** C4 (amended): for a SELL with negative PnL, a positive notional within
    the 500,000 cap and a loss above 15% of the notional, [assess_risk] fails
    with HTTP 500: with [PnlMismatch] if the PnL differs from the recomputed
    one by more than 0.10, otherwise with [SellLossViolation]; both are
    consistency violations of inner status 422.  A loss at or below 15% never
    triggers [SellLossViolation].  In the Standard saga such an order gets no
    risk result, ends FAILED (or HTTP 500) and is never executed; when the
    validation price is non-zero, the risk service is reached and the quoted
    price is positive, it ends with the FAILED response of code 500 and
    failure stage risk_assessment, after the calls validate, pricing, pricing
    and risk. *)
Theorem sell_loss_check :
  (forall rq, rq_order_type rq = SELL -> rq_pnl rq < 0 ->
     0 < inject_Z (rq_quantity rq) * rq_price rq ->
     inject_Z (rq_quantity rq) * rq_price rq <= 500000 ->
     15 < Qabs (rq_pnl rq) / Qabs (inject_Z (rq_quantity rq) * rq_price rq) * 100 ->
     ((1 # 10) < Qabs (expected_pnl (rq_symbol rq) (rq_quantity rq) (rq_price rq) (rq_order_type rq)
                       - rq_pnl rq) ->
      assess_risk rq =
        RiskFailed 500
          (PnlMismatch (rq_symbol rq) (dict_get expected_cost_basis_map (rq_symbol rq) 50)
             (expected_pnl (rq_symbol rq) (rq_quantity rq) (rq_price rq) (rq_order_type rq))
             (rq_pnl rq)
             (Qabs (expected_pnl (rq_symbol rq) (rq_quantity rq) (rq_price rq) (rq_order_type rq)
                    - rq_pnl rq)))) /\
     (Qabs (expected_pnl (rq_symbol rq) (rq_quantity rq) (rq_price rq) (rq_order_type rq)
            - rq_pnl rq) <= 1 # 10 ->
      assess_risk rq =
        RiskFailed 500
          (SellLossViolation (rq_quantity rq) (rq_price rq) (rq_pnl rq)
             (Qabs (rq_pnl rq) / Qabs (inject_Z (rq_quantity rq) * rq_price rq) * 100))) /\
     (forall c e, assess_risk rq = RiskFailed c e ->
        c = 500%Z /\ inner_status_code e = Some 422%Z /\ is_consistency_violation e = true)) /\
  (forall rq c q p l pct,
     Qabs (rq_pnl rq) / Qabs (inject_Z (rq_quantity rq) * rq_price rq) * 100 <= 15 ->
     assess_risk rq <> RiskFailed c (SellLossViolation q p l pct)) /\
  (forall env order o st calls tr pr,
     place_order env order = (o, st, calls) ->
     trade_result st = Some tr -> pricing_result st = Some pr ->
     or_order_type order = SELL -> pr_estimated_pnl pr < 0 ->
     0 < inject_Z (actual_quantity tr order) * pr_price pr ->
     inject_Z (actual_quantity tr order) * pr_price pr <= 500000 ->
     15 < Qabs (pr_estimated_pnl pr) / Qabs (inject_Z (actual_quantity tr order) * pr_price pr) * 100 ->
     risk_result st = None /\ (outcome_status o = Some FAILED \/ o = Raise 500%Z) /\
     ~ In CExecute calls /\
     (forall vp, env_validation_pricing env = Ok vp -> ~ pr_price vp == 0 ->
        env_risk_transport env = None -> 0 < pr_price pr ->
        o = Respond (build_error_response st 500) /\
        status (build_error_response st 500) = FAILED /\
        determine_failure_stage st = RiskAssessment /\
        calls = [CValidate; CPricing; CPricing; CRisk])).
Proof.
  split; [|split; [exact sell_loss_not_flagged|]].
  - intros rq Hs Hn Hp Hc Hl.
    destruct (sell_loss_fails_exact rq Hs Hn Hp Hc Hl) as [Hm Hsl].
    split; [exact Hm|]. split; [exact Hsl|].
    intros c e He.
    destruct (Qlt_le_dec (1 # 10) (Qabs (expected_pnl (rq_symbol rq) (rq_quantity rq) (rq_price rq)
                                          (rq_order_type rq) - rq_pnl rq))) as [Hd|Hd];
      [rewrite (Hm Hd) in He | rewrite (Hsl Hd) in He];
      injection He as <- <-; repeat split.
  - intros env order o st calls tr pr H Ht Hp Hs Hn H0 H1 Hl.
    set (rq := retail_risk_request env order (actual_quantity tr order) pr).
    assert (He : exists e, assess_risk rq = RiskFailed 500 e).
    { destruct (sell_loss_fails_exact rq) as [Hm Hsl]; cbn; auto.
      destruct (Qlt_le_dec (1 # 10) (Qabs (expected_pnl (rq_symbol rq) (rq_quantity rq) (rq_price rq)
                                            (rq_order_type rq) - rq_pnl rq))) as [Hd|Hd];
        eexists; [exact (Hm Hd) | exact (Hsl Hd)]. }
    destruct He as [e He].
    destruct (place_order_risk_fails env order o st calls tr pr H Ht Hp) as (Hr & Ho & Hx).
    { intros r Hr. change (assess_risk rq = RiskOk r) in Hr. congruence. }
    split; [exact Hr|]. split; [exact Ho|]. split; [exact Hx|].
    intros vp Hv Hz Htr Hpp.
    destruct (place_order_risk_error env order o st calls tr pr vp H Ht Hp Hv Hz)
      as (_ & Ho' & Hf & Hc).
    { apply (retail_risk_call_failed env rq 500 e Htr Hpp He). }
    split; [exact Ho'|]. split; [reflexivity|]. split; assumption.
Qed.

(* ------------------------------------------------------------------------- *)
(** * Pricing and the Algorithmic path: claims *)

(** C6: [calculate_estimated_pnl] follows the sign convention over the
    cost-basis table for every symbol but MSFT (the BUY of 100 AAPL at
    175.50 gives -1050); for MSFT it uses 350 instead of the table's 360, so
    a BUY of 100 MSFT at 378.90 gives -2890 where the convention gives -1890,
    and the risk service's own recomputation then fails the order with a
    consistency violation. *)
Theorem estimated_pnl_msft :
  calculate_estimated_pnl "MSFT" 100 (3789 # 10) BUY == -2890 /\
  py_round (spec_estimated_pnl "MSFT" 100 (3789 # 10) BUY) 2 == -1890 /\
  get_cost_basis "MSFT" = 360 /\
  expected_pnl "MSFT" 100 (3789 # 10) BUY == -1890 /\
  (exists e, assess_risk (mk_risk_request "MSFT" 100 (3789 # 10)
                            (calculate_estimated_pnl "MSFT" 100 (3789 # 10) BUY) BUY)
             = RiskFailed 500 e /\ is_consistency_violation e = true) /\
  calculate_estimated_pnl "AAPL" 100 (1755 # 10) BUY == -1050 /\
  (forall symbol quantity price order_type, symbol <> "MSFT" ->
     calculate_estimated_pnl symbol quantity price order_type
     = py_round (spec_estimated_pnl symbol quantity price order_type) 2).
Proof.
  split; [vm_compute; reflexivity|]. split; [vm_compute; reflexivity|].
  split; [reflexivity|]. split; [vm_compute; reflexivity|].
  split; [eexists; split; vm_compute; reflexivity|].
  split; [vm_compute; reflexivity|].
  intros symbol quantity price order_type Hs.
  unfold calculate_estimated_pnl, spec_estimated_pnl. cbv zeta.
  apply String.eqb_neq in Hs. rewrite Hs. reflexivity.
Qed.

(** C10: the algorithmic pricing path always reports an estimated PnL of 0;
    the pre-trade quick score is [quantity / 1000 * 5] and passes iff it is
    at most 50; approval depends on the symbol, quantity and strategy only,
    so two requests agreeing on those get the same answer whatever their
    PnL, price or side. *)
Theorem algo_path_ignores_pnl :
  (forall d, apr_estimated_pnl (calculate_algo_pricing d) = 0) /\
  (forall d, ptr_quick_risk_score (pre_trade_check d) = inject_Z (pt_quantity d) / 1000 * 5) /\
  (forall d, passes (verify_pre_trade_risk (pt_symbol d) (pt_quantity d)
                       (match pt_strategy_id d with Some s => s | None => "MOMENTUM_v2" end))
             = Qle_bool (inject_Z (pt_quantity d) / 1000 * 5) 50) /\
  (forall d, ptr_approved (pre_trade_check d) =
     Qle_bool (inject_Z (pt_quantity d) / 1000 * 5) 50 &&
     negb (check_strategy_correlation
             (match pt_strategy_id d with Some s => s | None => "MOMENTUM_v2" end) (pt_symbol d))) /\
  (forall d1 d2, pt_symbol d1 = pt_symbol d2 -> pt_quantity d1 = pt_quantity d2 ->
     pt_strategy_id d1 = pt_strategy_id d2 -> pre_trade_check d1 = pre_trade_check d2).
Proof.
  split; [reflexivity|]. split; [reflexivity|]. split; [reflexivity|].
  split; [reflexivity|].
  intros d1 d2 Hs Hq Hst. unfold pre_trade_check. rewrite Hs, Hq, Hst. reflexivity.
Qed.

(* ------------------------------------------------------------------------- *)
(** * The saga: claims *)

(** C1: in each of the three workflows a response with status EXECUTED comes
    with a risk result whose approved flag is true; and a risk result with
    approved = false ends the order as REJECTED, FAILED or PENDING_APPROVAL
    without calling the execution service. *)
Theorem execution_requires_approval :
  (forall env order o st calls, place_order env order = (o, st, calls) ->
     (outcome_status o = Some EXECUTED ->
        exists rr, risk_result st = Some rr /\ ra_approved rr = true) /\
     (forall rr, risk_result st = Some rr -> ra_approved rr = false ->
        (outcome_status o = Some REJECTED \/ outcome_status o = Some FAILED \/
         outcome_status o = Some PENDING_APPROVAL) /\ ~ In CExecute calls)) /\
  (forall env order o st calls, place_institutional_order env order = (o, st, calls) ->
     (outcome_status o = Some EXECUTED ->
        exists rr, risk_result st = Some rr /\ ir_approved rr = true) /\
     (forall rr, risk_result st = Some rr -> ir_approved rr = false ->
        (outcome_status o = Some REJECTED \/ outcome_status o = Some FAILED \/
         outcome_status o = Some PENDING_APPROVAL) /\ ~ In CExecute calls)) /\
  (forall env order o st calls, place_algo_order env order = (o, st, calls) ->
     (outcome_status o = Some EXECUTED ->
        exists rr, risk_result st = Some rr /\ al_approved rr = true) /\
     (forall rr, risk_result st = Some rr -> al_approved rr = false ->
        (outcome_status o = Some REJECTED \/ outcome_status o = Some FAILED \/
         outcome_status o = Some PENDING_APPROVAL) /\ ~ In CExecute calls)).
Proof.
  split; [|split]; intros env order o st calls H; saga_red H; repeat saga_step H;
    injection H as <- <- <-; cbn.
  all: split; [intro Hs | intros rr Hr Ha; (discriminate Hr || injection Hr as <-); split].
  all: try discriminate.
  all: try (left; reflexivity); try (right; left; reflexivity); try (right; right; reflexivity).
  all: try (intuition discriminate).
  all: try (eexists; split; [reflexivity|];
            first [eapply retail_risk_approved; eassumption | apply negb_false_iff; assumption]).
  all: exfalso.
  all: first [erewrite retail_risk_approved in Ha by eassumption; discriminate
             | rewrite Ha in *; discriminate].
Qed.

(** C9 (as stated, refuted): when the risk service times out in the
    Standard workflow the FAILED response carries a risk-assessment section
    for the stage that did not complete and no failure section naming a
    failure stage. *)
Lemma risk_timeout_response :
  fst (fst (place_order risk_timeout_env sample_order))
    = Respond (Build_OrderResponse FAILED
                 [SecValidation sample_trade true; SecPricing sample_pricing; SecRiskTimeout]).
Proof. vm_compute. reflexivity. Qed.

(** C9 (amended): the failure stage is the first stage without captured
    output; the error flow lists exactly the captured stages' outputs and one
    failure section; every FAILED response of the Institutional and
    Algorithmic workflows, and every one of the Standard workflow except its
    risk-timeout response, is that error flow; a pricing failure gives
    [validation; failure at pricing_calculation] in all three workflows; and
    a non-HTTP error of the Standard workflow surfaces as a bare HTTP 500. *)
Theorem failure_report_structure :
  (forall R (st : SagaState R), state_prefix_closed st ->
     (determine_failure_stage st = Validation <-> trade_result st = None) /\
     (determine_failure_stage st = PricingCalculation <->
        trade_result st <> None /\ pricing_result st = None) /\
     (determine_failure_stage st = RiskAssessment <->
        pricing_result st <> None /\ risk_result st = None) /\
     (determine_failure_stage st = Execution <-> risk_result st <> None)) /\
  (forall R (st : SagaState R) code,
     (forall tr b, In (SecValidation tr b) (error_execution_flow st code) <->
        trade_result st = Some tr /\ b = true) /\
     (forall pr, In (SecPricing pr) (error_execution_flow st code) <-> pricing_result st = Some pr) /\
     (forall r, In (SecRisk r) (error_execution_flow st code) <-> risk_result st = Some r) /\
     (forall stage c, In (SecFailure stage c) (error_execution_flow st code) <->
        stage = determine_failure_stage st /\ c = code) /\
     ~ In SecRiskTimeout (error_execution_flow st code) /\
     (forall ex, ~ In (SecExecution ex) (error_execution_flow st code))) /\
  (forall env order o st calls, place_order env order = (o, st, calls) ->
     state_prefix_closed st /\
     (forall c, o = Raise c -> c = 500%Z) /\
     (forall resp, o = Respond resp -> status resp = FAILED ->
        (exists code, execution_flow resp = error_execution_flow st code) \/
        (exists tr pr, env_risk_transport env = Some 504%Z /\
           trade_result st = Some tr /\ pricing_result st = Some pr /\ risk_result st = None /\
           execution_flow resp = [SecValidation tr true; SecPricing pr; SecRiskTimeout]))) /\
  (forall env order o st calls, place_institutional_order env order = (o, st, calls) ->
     state_prefix_closed st /\ (forall c, o <> Raise c) /\
     (forall resp, o = Respond resp -> status resp = FAILED ->
        exists code, execution_flow resp = error_execution_flow st code)) /\
  (forall env order o st calls, place_algo_order env order = (o, st, calls) ->
     state_prefix_closed st /\ (forall c, o <> Raise c) /\
     (forall resp, o = Respond resp -> status resp = FAILED ->
        exists code, execution_flow resp = error_execution_flow st code)) /\
  (forall env order tr c, env_validate env = Ok tr -> tr_valid tr = true ->
     (env_validation_pricing env = HttpError c \/
      exists vp, env_validation_pricing env = Ok vp /\ env_pricing env = HttpError c) ->
     fst (fst (place_order env order)) =
       Respond (Build_OrderResponse FAILED [SecValidation tr true; SecFailure PricingCalculation c])) /\
  (forall env order tr c, env_validate env = Ok tr -> tr_valid tr = true ->
     env_pricing env = HttpError c ->
     fst (fst (place_institutional_order env order)) =
       Respond (Build_OrderResponse FAILED [SecValidation tr true; SecFailure PricingCalculation c]) /\
     fst (fst (place_algo_order env order)) =
       Respond (Build_OrderResponse FAILED [SecValidation tr true; SecFailure PricingCalculation c])).
Proof.
  split; [|split; [|split; [|split; [|split; [|split]]]]].
  - intros R [t p r] [H1 H2]; cbn in *.
    destruct t, p, r; cbn; repeat split; intros; try congruence;
      try (exfalso; apply H1; congruence); try (exfalso; apply H2; congruence);
      intuition congruence.
  - intros R [t p r] code; unfold error_execution_flow; cbn.
    destruct t, p, r; cbn; repeat split; intros;
      repeat match goal with H : _ \/ _ |- _ => destruct H end;
      try match goal with H : False |- _ => destruct H end;
      try congruence; intuition congruence.
  - intros env order o st calls H. saga_red H. repeat saga_step H.
    all: injection H as <- <- <-; unfold state_prefix_closed; cbn.
    all: (split; [split; intros; congruence|]).
    all: split; [intros c Hc; congruence|].
    all: intros resp Hr Hs; try discriminate Hr; injection Hr as <-; try discriminate Hs.
    all: first [left; eexists; reflexivity | right; do 2 eexists; repeat split; eauto].
    all: apply Z.eqb_eq in Heqb1; subst; eapply retail_risk_timeout; eassumption.
  - intros env order o st calls H; saga_red H; repeat saga_step H.
    all: injection H as <- <- <-; unfold state_prefix_closed; cbn.
    all: (split; [split; intros; congruence|]).
    all: split; [intros c Hc; discriminate Hc|].
    all: intros resp Hr Hs; injection Hr as <-; try discriminate Hs.
    all: eexists; reflexivity.
  - intros env order o st calls H; saga_red H; repeat saga_step H.
    all: injection H as <- <- <-; unfold state_prefix_closed; cbn.
    all: (split; [split; intros; congruence|]).
    all: split; [intros c Hc; discriminate Hc|].
    all: intros resp Hr Hs; injection Hr as <-; try discriminate Hs.
    all: eexists; reflexivity.
  - intros env order tr c Hv Ht Hp.
    destruct (place_order env order) as [[o st] calls] eqn:H. cbn.
    saga_red H. rewrite Hv in H. cbn in H. rewrite Ht in H. cbn in H.
    destruct Hp as [Hp | (vp & Hvp & Hp)].
    + rewrite Hp in H. cbn in H. injection H as <- <- <-. reflexivity.
    + rewrite Hvp in H. cbn in H. rewrite Hp in H. cbn in H.
      injection H as <- <- <-. reflexivity.
  - intros env order tr c Hv Ht Hp. unfold place_institutional_order, place_algo_order.
    split; saga_red_goal; rewrite Hv; cbn; rewrite Ht; cbn; rewrite Hp; reflexivity.
Qed.

(* ------------------------------------------------------------------------- *)
(** * Further properties of the services and the retail workflow *)

(** ** Helper lemmas: rounding, dict lookups and the pricing chain *)

Lemma Qltb_comp x x' y y' : x == x' -> y == y' -> Qltb x y = Qltb x' y'.
Proof.
  intros Hx Hy. destruct (Qltb x y) eqn:E1; destruct (Qltb x' y') eqn:E2; qbool;
    try reflexivity; exfalso; rewrite Hx, Hy in *; lra.
Qed.

Lemma round_half_even_comp q q' : q == q' -> round_half_even q = round_half_even q'.
Proof.
  intro H. unfold round_half_even.
  rewrite (Qfloor_comp q q' H).
  rewrite (Qltb_comp (q - inject_Z (Qfloor q')) (q' - inject_Z (Qfloor q')) (1 # 2) (1 # 2))
    by lra.
  rewrite (Qltb_comp (1 # 2) (1 # 2) (q - inject_Z (Qfloor q')) (q' - inject_Z (Qfloor q')))
    by lra.
  reflexivity.
Qed.

Lemma round_half_even_Z n : round_half_even (inject_Z n) = n.
Proof.
  unfold round_half_even. rewrite Qfloor_Z.
  destruct (Qltb (inject_Z n - inject_Z n) (1 # 2)) eqn:E; [reflexivity|].
  qbool. exfalso. lra.
Qed.

Lemma round_half_even_mono x y : x <= y -> (round_half_even x <= round_half_even y)%Z.
Proof.
  intro H.
  assert (Hf : (Qfloor x <= Qfloor y)%Z) by (apply Qfloor_resp_le; exact H).
  pose proof (Qfloor_le x) as Fx1. pose proof (Qlt_floor x) as Fx2.
  pose proof (Qfloor_le y) as Fy1. pose proof (Qlt_floor y) as Fy2.
  rewrite inject_Z_plus in Fx2, Fy2. change (inject_Z 1) with 1 in Fx2, Fy2.
  destruct (Z.lt_ge_cases (Qfloor x) (Qfloor y)) as [Hlt|Hge].
  - destruct (round_half_even_cases x) as [[Ex|Ex] _];
    destruct (round_half_even_cases y) as [[Ey|Ey] _]; rewrite Ex, Ey; lia.
  - assert (Heq : Qfloor x = Qfloor y) by lia.
    unfold round_half_even. rewrite Heq.
    destruct (Qltb (x - inject_Z (Qfloor y)) (1 # 2)) eqn:E1;
    destruct (Qltb (1 # 2) (x - inject_Z (Qfloor y))) eqn:E2;
    destruct (Qltb (y - inject_Z (Qfloor y)) (1 # 2)) eqn:E3;
    destruct (Qltb (1 # 2) (y - inject_Z (Qfloor y))) eqn:E4;
    destruct (Z.even (Qfloor y)); qbool; try lia; exfalso; lra.
Qed.

Lemma py_round_mono x y n : x <= y -> py_round x n <= py_round y n.
Proof.
  intro H. unfold py_round.
  assert (Hs : 0 < inject_Z (10 ^ Z.of_nat n)).
  { change 0 with (inject_Z 0). rewrite <- Zlt_Qlt. apply Z.pow_pos_nonneg; lia. }
  unfold Qdiv. apply Qmult_le_compat_r; [|apply Qlt_le_weak, Qinv_lt_0_compat; exact Hs].
  rewrite <- Zle_Qle. apply round_half_even_mono.
  apply Qmult_le_compat_r; [exact H | apply Qlt_le_weak; exact Hs].
Qed.

Lemma py_round_idem x n : py_round (py_round x n) n == py_round x n.
Proof.
  unfold py_round at 1.
  assert (Hs : ~ inject_Z (10 ^ Z.of_nat n) == 0).
  { intro E. change 0 with (inject_Z 0) in E. rewrite inject_Z_injective in E.
    pose proof (Z.pow_pos_nonneg 10 (Z.of_nat n)). lia. }
  rewrite (round_half_even_comp _ (inject_Z (round_half_even (x * inject_Z (10 ^ Z.of_nat n))))).
  - rewrite round_half_even_Z. reflexivity.
  - unfold py_round. field. exact Hs.
Qed.

Lemma py_round2_close x : x - (1 # 200) <= py_round x 2 /\ py_round x 2 <= x + (1 # 200).
Proof.
  unfold py_round. simpl Z.of_nat. change (10 ^ 2)%Z with 100%Z.
  change (inject_Z 100) with 100.
  pose proof (round_half_even_close (x * 100)) as [L U].
  unfold Qdiv. change (/ 100) with (1 # 100). split; lra.
Qed.

Lemma dict_lookup_Forall {A : Type} (P : A -> Prop) (m : list (string * A)) k v :
  Forall (fun kv => P (snd kv)) m -> dict_lookup k m = Some v -> P v.
Proof.
  intro Hm. induction Hm as [|[k' v'] m' Hv Hm' IH]; simpl; [discriminate|].
  destruct (String.eqb k k'); [intro E; injection E as <-; exact Hv | exact IH].
Qed.

Lemma dict_lookup_not_in {A : Type} (m : list (string * A)) k :
  ~ In k (map fst m) -> dict_lookup k m = None.
Proof.
  induction m as [|[k' v'] m' IH]; simpl; [reflexivity|].
  intro H. destruct (String.eqb k k') eqn:E.
  - apply String.eqb_eq in E. exfalso. apply H. left. symmetry. exact E.
  - apply IH. intro H'. apply H. right. exact H'.
Qed.

Lemma base_prices_ge symbol b : dict_lookup symbol base_prices = Some b -> 140 <= b.
Proof.
  apply (dict_lookup_Forall (fun v => 140 <= v)).
  repeat constructor; unfold Qle; simpl; lia.
Qed.

Lemma base_prices_not_restricted symbol b :
  dict_lookup symbol base_prices = Some b -> existsb (String.eqb symbol) restricted_symbols = false.
Proof.
  unfold base_prices, restricted_symbols. simpl.
  repeat match goal with
  | |- context [String.eqb symbol ?s] => destruct (String.eqb symbol s) eqn:?
  end; simpl; try discriminate; try reflexivity;
  repeat match goal with H : String.eqb _ _ = true |- _ => apply String.eqb_eq in H end;
  subst; discriminate.
Qed.

Lemma Qabs_le_intro x c : - c <= x -> x <= c -> Qabs x <= c.
Proof. intros. apply Qabs_Qle_condition. split; assumption. Qed.

Lemma Qgtb_false_intro x y : x <= y -> Qgtb x y = false.
Proof.
  intro H. unfold Qgtb. destruct (Qltb y x) eqn:E; [|reflexivity]. qbool. exfalso. lra.
Qed.

Lemma Qgtb_true_intro x y : y < x -> Qgtb x y = true.
Proof. intro H. unfold Qgtb. apply Qltb_iff. exact H. Qed.

Lemma pct_le_10 x b : 0 < b -> x <= b * (1 # 10) -> x / b * 100 <= 10.
Proof.
  intros Hb H. assert (Hd : x / b <= 1 # 10).
  { apply Qle_shift_div_r; [exact Hb|]. lra. }
  set (y := x / b) in *. lra.
Qed.

Lemma validate_price_components_ok symbol b v :
  140 <= b -> - (2 # 100) <= v -> v <= 2 # 100 ->
  validate_price_components symbol b v = inl (py_round (b * (1 + v)) 2).
Proof.
  intros Hb Hv1 Hv2. unfold validate_price_components, and_then, check_price_range_validity,
    verify_market_conditions.
  pose proof (py_round2_close (b * (1 + v))) as [L U].
  set (p := py_round (b * (1 + v)) 2) in *.
  destruct (Qeq_bool b 0) eqn:E0.
  { apply Qeq_bool_iff in E0. exfalso. lra. }
  rewrite Qgtb_false_intro.
  - destruct (Qle_bool p 0) eqn:E1; [|reflexivity]. qbool. exfalso. nra.
  - apply pct_le_10; [lra|]. apply Qabs_le_intro; nra.
Qed.

Lemma get_market_price_known symbol v b :
  - (2 # 100) <= v -> v <= 2 # 100 -> dict_lookup symbol base_prices = Some b ->
  get_market_price symbol v = inl (py_round (b * (1 + v)) 2).
Proof.
  intros Hv1 Hv2 Hb. unfold get_market_price.
  rewrite (base_prices_not_restricted symbol b Hb), Hb.
  apply validate_price_components_ok; [apply (base_prices_ge symbol) | |]; assumption.
Qed.

Lemma get_market_price_restricted symbol v :
  In symbol restricted_symbols -> get_market_price symbol v = inr (HTTPException 503).
Proof.
  intro H. unfold get_market_price.
  replace (existsb (String.eqb symbol) restricted_symbols) with true; [reflexivity|].
  symmetry. apply existsb_exists. exists symbol. split; [exact H | apply String.eqb_refl].
Qed.

Lemma get_market_price_unknown symbol v :
  ~ In symbol restricted_symbols -> dict_lookup symbol base_prices = None ->
  get_market_price symbol v = inr ValueError.
Proof.
  intros H Hn. unfold get_market_price. rewrite Hn.
  destruct (existsb (String.eqb symbol) restricted_symbols) eqn:E; [|reflexivity].
  apply existsb_exists in E as [s [Hs Es]]. apply String.eqb_eq in Es. subst. contradiction.
Qed.

Lemma Qabs_minus_self x : Qgtb (Qabs (x - x)) (1 # 100) = false.
Proof. apply Qgtb_false_intro. apply Qabs_le_intro; lra. Qed.

Lemma calculate_total_cost_buy_ok quantity price symbol :
  calculate_total_cost quantity price symbol BUY =
  inl {| base_amount := inject_Z quantity * price;
         commission := inject_Z quantity * price * (5 # 1000);
         fees := inject_Z quantity * (1 # 100);
         total_cost := inject_Z quantity * price + inject_Z quantity * price * (5 # 1000)
                       + inject_Z quantity * (1 # 100) |}.
Proof.
  unfold calculate_total_cost, validate_cost_breakdown, verify_fee_calculations,
    audit_commission_rate, and_then.
  set (g := inject_Z quantity * price). set (f := inject_Z quantity * (1 # 100)).
  rewrite Qabs_minus_self.
  destruct (Qltb g (1 # 100)) eqn:Eg; [rewrite Qabs_minus_self; reflexivity|].
  qbool.
  rewrite Qgtb_false_intro; [rewrite Qabs_minus_self; reflexivity|].
  apply Qabs_le_intro.
  - setoid_replace (g * (5 # 1000) / g) with (5 # 1000) by (field; intro; lra). lra.
  - setoid_replace (g * (5 # 1000) / g) with (5 # 1000) by (field; intro; lra). lra.
Qed.

Lemma large_sell_cond quantity symbol :
  (quantity > 200)%Z -> In symbol ["TSLA"; "NVDA"] ->
  ((quantity >? 200)%Z && existsb (String.eqb symbol) ["TSLA"; "NVDA"]) = true.
Proof.
  intros Hq Hs. apply andb_true_intro. split; [apply Z.gtb_lt; lia|].
  apply existsb_exists. exists symbol. split; [exact Hs | apply String.eqb_refl].
Qed.

Lemma calculate_total_cost_large_sell quantity price symbol :
  (quantity > 200)%Z -> In symbol ["TSLA"; "NVDA"] -> 1 # 100 <= inject_Z quantity * price ->
  calculate_total_cost quantity price symbol SELL = inr ValueError.
Proof.
  intros Hq Hs Hg. unfold calculate_total_cost.
  rewrite (large_sell_cond quantity symbol Hq Hs).
  unfold validate_cost_breakdown, verify_fee_calculations, audit_commission_rate, and_then.
  set (g := inject_Z quantity * price) in *.
  destruct (Qltb (g * (207 # 10000000)) 0) eqn:E1; qbool; [exfalso; lra|].
  destruct (Qltb g (1 # 100)) eqn:E2; qbool; [exfalso; lra|].
  rewrite Qgtb_true_intro; [reflexivity|].
  setoid_replace ((g * (5 # 1000) + g * (2 # 100)) / g) with (25 # 1000) by (field; intro; lra).
  reflexivity.
Qed.

Lemma calculate_total_cost_sell quantity price symbol :
  ~ ((quantity > 200)%Z /\ In symbol ["TSLA"; "NVDA"]) ->
  (0 <= inject_Z quantity * price ->
   calculate_total_cost quantity price symbol SELL =
   inl {| base_amount := inject_Z quantity * price;
          commission := inject_Z quantity * price * (5 # 1000);
          fees := inject_Z quantity * price * (207 # 10000000);
          total_cost := inject_Z quantity * price - inject_Z quantity * price * (5 # 1000)
                        - inject_Z quantity * price * (207 # 10000000) |}) /\
  (inject_Z quantity * price < 0 ->
   calculate_total_cost quantity price symbol SELL = inr ValueError).
Proof.
  intro Hn. unfold calculate_total_cost.
  replace ((quantity >? 200)%Z && existsb (String.eqb symbol) ["TSLA"; "NVDA"]) with false.
  2:{ symmetry. apply not_true_iff_false. intro E. apply Hn.
      apply andb_true_iff in E as [E1 E2]. apply Z.gtb_lt in E1. split; [lia|].
      apply existsb_exists in E2 as [s [Hs Es]]. apply String.eqb_eq in Es. subst. exact Hs. }
  unfold validate_cost_breakdown, verify_fee_calculations, audit_commission_rate, and_then.
  set (g := inject_Z quantity * price).
  split; intro Hg.
  - destruct (Qltb (g * (207 # 10000000)) 0) eqn:E1; qbool; [exfalso; lra|].
    rewrite Qabs_minus_self.
    destruct (Qltb g (1 # 100)) eqn:E2; [reflexivity|]. qbool.
    rewrite Qgtb_false_intro; [reflexivity|].
    setoid_replace (g * (5 # 1000) / g) with (5 # 1000) by (field; intro; lra).
    vm_compute. discriminate.
  - destruct (Qltb (g * (207 # 10000000)) 0) eqn:E1; qbool; [reflexivity|]. exfalso. lra.
Qed.

Lemma market_price_bounds b v :
  140 <= b -> - (2 # 100) <= v -> v <= 2 # 100 ->
  b * (1 + v) - (1 # 200) <= py_round (b * (1 + v)) 2 /\
  py_round (b * (1 + v)) 2 <= b * (1 + v) + (1 # 200) /\
  137 <= py_round (b * (1 + v)) 2.
Proof.
  intros Hb Hv1 Hv2. pose proof (py_round2_close (b * (1 + v))) as [L U].
  split; [exact L|]. split; [exact U|]. nra.
Qed.

(** ** Properties *)

(** X1: [calculate_pricing] with a variance within +-2%: a restricted
    symbol (GME, AMC) ends in HTTP 503, a symbol without a base price in HTTP
    404, and every SELL of more than 200 TSLA or NVDA in HTTP 500, because the
    2% surcharge makes the commission audit see a 2.5% rate. *)
Theorem calculate_pricing_errors request_data variance :
  - (2 # 100) <= variance -> variance <= 2 # 100 ->
  (In (pq_symbol request_data) restricted_symbols ->
   calculate_pricing request_data variance = inr 503%Z) /\
  (~ In (pq_symbol request_data) restricted_symbols ->
   dict_lookup (pq_symbol request_data) base_prices = None ->
   calculate_pricing request_data variance = inr 404%Z) /\
  (pq_order_type request_data = SELL -> (pq_quantity request_data > 200)%Z ->
   In (pq_symbol request_data) ["TSLA"; "NVDA"] ->
   calculate_pricing request_data variance = inr 500%Z).
Proof.
  intros Hv1 Hv2. unfold calculate_pricing.
  split; [|split].
  - intro H. rewrite get_market_price_restricted by exact H. reflexivity.
  - intros H Hn. rewrite get_market_price_unknown by assumption. reflexivity.
  - intros Ht Hq Hs.
    assert (Hk : exists b, dict_lookup (pq_symbol request_data) base_prices = Some b).
    { destruct Hs as [<-|[<-|[]]]; eexists; reflexivity. }
    destruct Hk as [b Hb].
    rewrite (get_market_price_known _ _ b Hv1 Hv2 Hb).
    pose proof (market_price_bounds b variance (base_prices_ge _ _ Hb) Hv1 Hv2) as [_ [_ Hp]].
    rewrite Ht, calculate_total_cost_large_sell; [reflexivity|exact Hq|exact Hs|].
    assert (Hq' : 201 <= inject_Z (pq_quantity request_data)).
    { change 201 with (inject_Z 201). rewrite <- Zle_Qle. lia. }
    nra.
Qed.

(** X2: for a BUY of a priced symbol, [calculate_pricing] succeeds with the
    price [round(base * (1 + variance), 2)], base amount [quantity * price] and
    total cost [quantity * price * 1.005 + quantity * 0.01]: the 0.98 bulk
    adjustment of [order_value] never reaches the response. *)
Theorem calculate_pricing_buy_total request_data variance b :
  - (2 # 100) <= variance -> variance <= 2 # 100 ->
  pq_order_type request_data = BUY ->
  dict_lookup (pq_symbol request_data) base_prices = Some b ->
  exists resp, calculate_pricing request_data variance = inl resp /\
    ps_price resp = py_round (b * (1 + variance)) 2 /\
    ps_base_amount resp = inject_Z (pq_quantity request_data) * ps_price resp /\
    ps_total_cost resp ==
      inject_Z (pq_quantity request_data) * ps_price resp * (1 + (5 # 1000))
      + inject_Z (pq_quantity request_data) * (1 # 100).
Proof.
  intros Hv1 Hv2 Ht Hb. unfold calculate_pricing.
  rewrite (get_market_price_known _ _ b Hv1 Hv2 Hb), Ht, calculate_total_cost_buy_ok.
  eexists. split; [reflexivity|]. cbn [ps_price ps_base_amount ps_total_cost total_cost base_amount]. split; [reflexivity|]. split; [reflexivity|]. ring.
Qed.

Lemma apply_volume_discount_le quantity base_price :
  0 <= base_price -> apply_volume_discount quantity base_price <= py_round base_price 2.
Proof.
  intro Hb. unfold apply_volume_discount. apply py_round_mono.
  destruct (quantity >=? 10000)%Z; [|destruct (quantity >=? 5000)%Z; [|destruct (quantity >=? 1000)%Z]]; nra.
Qed.

Lemma apply_volume_discount_le_rounded quantity p :
  0 <= p -> apply_volume_discount quantity (py_round p 2) <= py_round p 2.
Proof.
  intro Hp.
  assert (H0 : 0 <= py_round p 2).
  { apply Qle_trans with (py_round 0 2); [vm_compute; intro; discriminate|].
    apply py_round_mono. exact Hp. }
  pose proof (apply_volume_discount_le quantity (py_round p 2) H0) as H.
  rewrite py_round_idem in H. exact H.
Qed.

(** X3: [apply_volume_discount] never raises a non-negative price above its
    2-decimal rounding, and a larger quantity never gets a higher price. *)
Theorem apply_volume_discount_monotone q1 q2 base_price :
  0 <= base_price -> (q1 <= q2)%Z ->
  apply_volume_discount q2 base_price <= apply_volume_discount q1 base_price /\
  apply_volume_discount q1 base_price <= py_round base_price 2.
Proof.
  intros Hb Hq. split; [|apply apply_volume_discount_le; exact Hb].
  unfold apply_volume_discount. apply py_round_mono.
  destruct (q1 >=? 10000)%Z eqn:E1; destruct (q1 >=? 5000)%Z eqn:E2;
  destruct (q1 >=? 1000)%Z eqn:E3; destruct (q2 >=? 10000)%Z eqn:E4;
  destruct (q2 >=? 5000)%Z eqn:E5; destruct (q2 >=? 1000)%Z eqn:E6;
  rewrite ?Z.geb_le, ?Z.geb_leb, ?Z.leb_le, ?Z.leb_gt in *; try lia; nra.
Qed.

(** X4: for a symbol with a base price and a variance within +-2%,
    [calculate_institutional_pricing] succeeds for every quantity and order
    type; the price is the volume-discounted base price and the reported
    [volume_discount] is never negative. *)
Theorem calculate_institutional_pricing_ok symbol quantity order_type variance b :
  - (2 # 100) <= variance -> variance <= 2 # 100 ->
  dict_lookup symbol base_prices = Some b ->
  exists r, calculate_institutional_pricing symbol quantity order_type variance = inl r /\
    ip_base_price r = py_round (b * (1 + variance)) 2 /\
    ip_price r = apply_volume_discount quantity (ip_base_price r) /\
    0 <= ip_volume_discount r.
Proof.
  intros Hv1 Hv2 Hb. unfold calculate_institutional_pricing.
  rewrite (get_market_price_known _ _ b Hv1 Hv2 Hb). cbn [and_then].
  eexists. split; [reflexivity|]. cbn [ip_base_price ip_price ip_volume_discount].
  split; [reflexivity|]. split; [reflexivity|].
  pose proof (base_prices_ge _ _ Hb) as H140.
  assert (Hp : 0 <= b * (1 + variance)) by nra.
  pose proof (apply_volume_discount_le_rounded quantity (b * (1 + variance)) Hp) as Hd. lra.
Qed.

(** X5: [analyze_tax_implications] always reports no wash-sale risk and a
    deduction limit of 3000, and its tax benefit is 24% of [|pnl|] up to
    rounding, whatever the size of the loss: the limit does not cap it. *)
Theorem analyze_tax_implications_uncapped order_id symbol pnl quantity :
  wash_sale_risk (ta_wash_sale_check (analyze_tax_implications order_id symbol pnl quantity)) = false /\
  deduction_limit (ta_tax_calculation (analyze_tax_implications order_id symbol pnl quantity)) = 3000%Z /\
  (24 # 100) * Qabs pnl - (1 # 200)
    <= ta_tax_benefit (analyze_tax_implications order_id symbol pnl quantity) /\
  ta_tax_benefit (analyze_tax_implications order_id symbol pnl quantity)
    <= (24 # 100) * Qabs pnl + (1 # 200).
Proof.
  cbn [analyze_tax_implications ta_wash_sale_check ta_tax_calculation ta_tax_benefit
       check_wash_sale_rule wash_sale_risk calculate_tax_implications deduction_limit
       estimated_tax_benefit].
  pose proof (py_round2_close (Qabs pnl * (24 # 100))) as [L U].
  split; [reflexivity|]. split; [reflexivity|]. split; lra.
Qed.

(** X6: [assess_institutional_risk] approves exactly when the risk score is
    at most 70, the aggregate position stays within 100000 shares, the
    position value is at most 500000 (no 13F flag) and the quantity at most
    50000 (no 13D flag): either flag alone blocks approval. *)
Theorem assess_institutional_risk_approval order_id symbol quantity price pnl order_type :
  ia_approved (assess_institutional_risk order_id symbol quantity price pnl order_type) = true <->
  fst (calculate_risk_score symbol quantity price pnl order_type) <= 70 /\
  (dict_get aggregate_positions symbol 0 + quantity <= 100000)%Z /\
  inject_Z quantity * price <= 500000 /\ (quantity <= 50000)%Z.
Proof.
  unfold assess_institutional_risk.
  destruct (calculate_risk_score symbol quantity price pnl order_type) as [rs rf]. cbn.
  unfold Qgtb.
  destruct (Qle_bool rs 70) eqn:E1;
  destruct (dict_get aggregate_positions symbol 0 + quantity <=? 100000)%Z eqn:E2;
  destruct (Qltb 500000 (inject_Z quantity * price)) eqn:E3;
  destruct (quantity >? 50000)%Z eqn:E4; cbn; qbool;
  rewrite ?Z.leb_le, ?Z.leb_gt, ?Z.gtb_lt, ?Z.gtb_ltb, ?Z.ltb_lt, ?Z.ltb_ge in *;
  split; intro H; try discriminate; try (repeat split; assumption || lia);
  exfalso; destruct H as [H1 [H2 [H3 H4]]]; try lia; lra.
Qed.

(** X7: every answer of [escalate_high_risk_order] has
    [manual_approval_required = false]; it is auto-approved exactly when the
    score is below 85, and names the AI reviewer in that case only. *)
Theorem escalate_high_risk_order_flags order_id risk_score risk_factors r :
  escalate_high_risk_order order_id risk_score risk_factors = Some r ->
  er_manual_approval_required r = false /\
  (er_auto_approved r = true <-> risk_score < 85) /\
  reviewed_by (er_escalation r) =
    (if Qltb risk_score 85 then "RiskManager_AI" else "RiskManager_Human_Required").
Proof.
  unfold escalate_high_risk_order.
  destruct (get_number risk_factors "quantity"); [|discriminate].
  destruct (get_number risk_factors "price"); [|discriminate].
  intro E. injection E as <-. cbn.
  split; [destruct (Qltb risk_score 85); reflexivity|].
  split; [apply Qltb_iff | reflexivity].
Qed.

Lemma calculate_risk_score_keys_no_price (risk_factors : list (string * PyVal)) :
  map fst risk_factors = calculate_risk_score_keys ->
  dict_lookup "price" risk_factors = None.
Proof.
  intro H. apply dict_lookup_not_in. rewrite H. vm_compute. intuition discriminate.
Qed.

(** X8: given the [risk_factors] dict built by [calculate_risk_score] (no
    [price] key), [escalate_high_risk_order] prices the position at 0: the
    portfolio impact is 0% and always MODERATE. *)
Theorem escalation_ignores_price_for_live_factors order_id risk_score risk_factors q :
  map fst risk_factors = calculate_risk_score_keys ->
  dict_lookup "quantity" risk_factors = Some (PyInt q) ->
  exists r, escalate_high_risk_order order_id risk_score risk_factors = Some r /\
    pi_position_value (er_portfolio_impact r) == 0 /\
    impact_pct (er_portfolio_impact r) == 0 /\
    estimated_volatility_increase (er_portfolio_impact r) = "MODERATE".
Proof.
  intros Hk Hq. unfold escalate_high_risk_order, get_number.
  rewrite Hq, (calculate_risk_score_keys_no_price _ Hk).
  eexists. split; [reflexivity|].
  cbn [er_portfolio_impact check_portfolio_impact pi_position_value impact_pct
       estimated_volatility_increase].
  split; [ring|]. split; [unfold Qdiv; ring|].
  rewrite Qgtb_false_intro; [reflexivity|]. lra.
Qed.

(** X9: [calculate_risk_score_OLD] is the current base score plus the
    volatility points (5 to 20) with no multiplier and no clamping, and lies
    between 20 and 100. *)
Theorem calculate_risk_score_OLD_unnormalized symbol quantity price pnl order_type :
  calculate_risk_score_OLD symbol quantity price pnl order_type =
    (rf_base_risk_score (snd (calculate_risk_score symbol quantity price pnl order_type))
     + dict_get volatile_symbols symbol 5)%Z /\
  (20 <= calculate_risk_score_OLD symbol quantity price pnl order_type <= 100)%Z.
Proof.
  assert (Heq : calculate_risk_score_OLD symbol quantity price pnl order_type =
    (rf_base_risk_score (snd (calculate_risk_score symbol quantity price pnl order_type))
     + dict_get volatile_symbols symbol 5)%Z) by reflexivity.
  split; [exact Heq|]. rewrite Heq, calculate_risk_score_base.
  pose proof (position_size_impact_range (inject_Z quantity * price)).
  pose proof (pnl_risk_factor_range pnl order_type).
  pose proof (quantity_risk_range quantity).
  assert (Hv : (5 <= dict_get volatile_symbols symbol 5 <= 20)%Z).
  { apply (dict_get_ge (fun v => 5 <= v <= 20)%Z); [repeat constructor; simpl; lia | lia]. }
  lia.
Qed.

(** X10: [check_portfolio_concentration] gives 20 points above a position
    value of 100000, 10 above 50000 and 0 otherwise (10% and 5% of the fixed
    1000000 portfolio). *)
Theorem check_portfolio_concentration_thresholds symbol quantity price :
  fst (check_portfolio_concentration symbol quantity price) =
    (if Qgtb (inject_Z quantity * price) 100000 then 20
     else if Qgtb (inject_Z quantity * price) 50000 then 10 else 0)%Z.
Proof.
  unfold check_portfolio_concentration. cbn [fst].
  set (pv := inject_Z quantity * price).
  unfold Qdiv. change (/ 1000000) with (1 # 1000000).
  destruct (Qgtb (pv * (1 # 1000000) * 100) 10) eqn:E1;
  destruct (Qgtb (pv * (1 # 1000000) * 100) 5) eqn:E2;
  destruct (Qgtb pv 100000) eqn:E3; destruct (Qgtb pv 50000) eqn:E4;
  qbool; try reflexivity; exfalso; lra.
Qed.

(** X11: [pre_trade_check] approves exactly when the quantity is at most
    10000 and the order is not a TSLA order of an active strategy (the default
    strategy MOMENTUM_v2 being active). *)
Theorem pre_trade_check_approval data :
  ptr_approved (pre_trade_check data) = true <->
  (pt_quantity data <= 10000)%Z /\
  ~ (pt_symbol data = "TSLA" /\
     In (match pt_strategy_id data with Some s => s | None => "MOMENTUM_v2" end)
        active_strategies).
Proof.
  unfold pre_trade_check, verify_pre_trade_risk, check_strategy_correlation. cbn [ptr_approved passes].
  set (sid := match pt_strategy_id data with Some s => s | None => "MOMENTUM_v2" end).
  assert (Hq : Qle_bool (inject_Z (pt_quantity data) / 1000 * 5) 50 = true <->
               (pt_quantity data <= 10000)%Z).
  { rewrite Qle_bool_iff, Zle_Qle. unfold Qdiv. change (/ 1000) with (1 # 1000).
    change (inject_Z 10000) with 10000. split; intro; lra. }
  assert (Hc : existsb (String.eqb sid) active_strategies = true <-> In sid active_strategies).
  { rewrite existsb_exists. split.
    - intros [s [Hs Es]]. apply String.eqb_eq in Es. subst. exact Hs.
    - intro H. exists sid. split; [exact H | apply String.eqb_refl]. }
  rewrite andb_true_iff, negb_true_iff, Hq. simpl (1 <? length active_strategies)%nat.
  rewrite andb_true_r.
  split.
  - intros [H1 H2]. split; [exact H1|]. intros [Hs Hi].
    apply Hc in Hi. rewrite Hi, Hs in H2. discriminate.
  - intros [H1 H2]. split; [exact H1|].
    destruct (existsb (String.eqb sid) active_strategies) eqn:E1; [|reflexivity].
    destruct (String.eqb (pt_symbol data) "TSLA") eqn:E2; [|reflexivity].
    exfalso. apply H2. split; [apply String.eqb_eq; exact E2 | apply Hc; reflexivity].
Qed.

(** X12: [place_order] issues its remote calls in the order validate,
    validation pricing, pricing, risk, escalate, tax analysis, execute, each at
    most once, some possibly left out. *)
Theorem place_order_call_sequence env order :
  is_subseq (snd (place_order env order)) retail_call_plan = true.
Proof.
  unfold place_order. saga_red_goal. saga_split_goal; reflexivity.
Qed.

(** X13: [place_institutional_order] and [place_algo_order] issue their
    remote calls in the order validate, pricing, risk, execute, each at most
    once, some possibly left out. *)
Theorem desk_workflows_call_sequence env order :
  is_subseq (snd (place_institutional_order env order)) desk_call_plan = true /\
  is_subseq (snd (place_algo_order env order)) desk_call_plan = true.
Proof.
  split; [unfold place_institutional_order | unfold place_algo_order];
    saga_red_goal; saga_split_goal; reflexivity.
Qed.

(** X14: [place_order] answers PENDING_APPROVAL only after a risk result with
    score above 75 and an escalation answer that is not auto-approved; the
    calls stop there and nothing is executed. *)
Theorem place_order_pending_approval env order :
  outcome_status (fst (fst (place_order env order))) = Some PENDING_APPROVAL ->
  exists rr esc, risk_result (snd (fst (place_order env order))) = Some rr /\
    75 < ra_risk_score rr /\ env_escalate env = Ok esc /\ es_auto_approved esc = false /\
    snd (place_order env order) = [CValidate; CPricing; CPricing; CRisk; CEscalate].
Proof.
  unfold place_order. saga_red_goal. saga_split_goal; cbn; intro H; try discriminate H.
  all: do 2 eexists; split; [reflexivity|]; split; [qbool; assumption|].
  all: split; [reflexivity|]; split; [apply negb_true_iff; assumption | reflexivity].
Qed.

(** X15: when the escalation or the tax-analysis call of [place_order] fails
    with an HTTP error, the order ends with the error response of that code,
    the failure is attributed to the execution stage, and execute is never
    called. *)
Theorem place_order_subsaga_failure env order c :
  (In CEscalate (snd (place_order env order)) /\ env_escalate env = HttpError c) \/
  (In CTaxAnalysis (snd (place_order env order)) /\ env_tax_analysis env = HttpError c) ->
  fst (fst (place_order env order)) =
    Respond (build_error_response (snd (fst (place_order env order))) c) /\
  determine_failure_stage (snd (fst (place_order env order))) = Execution /\
  ~ In CExecute (snd (place_order env order)).
Proof.
  unfold place_order. saga_red_goal. saga_split_goal; cbn;
    intros [[Hin He]|[Hin He]]; try discriminate He;
    try (exfalso; simpl in Hin; intuition discriminate).
  all: injection He as ->; split; [reflexivity | split; [reflexivity | intuition discriminate]].
Qed.

(** X16: [place_order] raises (HTTP 500, no response body) exactly when
    validation passed, both pricing calls answered, and the validation price is
    0, so [price_variance_pct] divides by zero; the calls made are validate and
    the two pricing calls. *)
Theorem place_order_raises env order c :
  fst (fst (place_order env order)) = Raise c <->
  c = 500%Z /\
  exists tr vp pr, env_validate env = Ok tr /\ tr_valid tr = true /\
    env_validation_pricing env = Ok vp /\ pr_price vp == 0 /\ env_pricing env = Ok pr /\
    snd (place_order env order) = [CValidate; CPricing; CPricing].
Proof.
  split.
  - unfold place_order. saga_red_goal. saga_split_goal; cbn; intro H; try discriminate H.
    all: injection H as <-; split; [reflexivity|]; do 3 eexists; repeat split; try reflexivity;
      [apply negb_false_iff; assumption | apply Qeq_bool_iff; assumption].
  - intros [-> [tr [vp [pr [H1 [H2 [H3 [H4 [H5 _]]]]]]]]].
    apply Qeq_bool_iff in H4.
    unfold place_order, place_order_body. saga_red_goal.
    rewrite H1, H3, H5. saga_red_goal. rewrite H2. cbn. rewrite H4. reflexivity.
Qed.

(** X17: the [risk_points] of [assess_order_risk] is the sum of its distinct
    [factors]; it is at most 25 for a BUY and 30 for a SELL, and a SELL at a
    loss scores at least 20. *)
Theorem assess_order_risk_points symbol quantity price pnl order_type :
  let '(risk_points, factors) := assess_order_risk symbol quantity price pnl order_type in
  risk_points = fold_right Z.add 0%Z (map snd factors) /\
  NoDup (map fst factors) /\
  (order_type = BUY -> (risk_points <= 25)%Z) /\
  (order_type = SELL -> (risk_points <= 30)%Z /\ (pnl < 0 -> (20 <= risk_points)%Z)).
Proof.
  unfold assess_order_risk.
  destruct order_type;
  [destruct (Qgtb (inject_Z quantity * price) 100000); destruct (Qltb pnl (-5000)) |
   destruct (Qltb pnl 0) eqn:E; destruct (Qgtb (inject_Z quantity * price) 50000)];
  cbn; (split; [reflexivity|]); (split; [repeat constructor; cbn; intuition discriminate|]);
  (split; intro Ht; try discriminate Ht; try lia);
  split; try lia; intro Hn; try lia; qbool; lra.
Qed.


(** ** Instances of the hypotheses of X1-X4, X7, X8, X14 and X15 *)

Lemma calculate_pricing_errors_witness :
  calculate_pricing {| pq_order_id := "ord-5"; pq_symbol := "TSLA"; pq_quantity := 300;
                       pq_order_type := SELL |} 0 = inr 500%Z.
Proof.
  refine (proj2 (proj2 (calculate_pricing_errors _ 0 _ _)) _ _ _);
    [vm_compute; intro; discriminate | vm_compute; intro; discriminate
    | reflexivity | reflexivity | simpl; tauto].
Defined.

Lemma calculate_pricing_buy_total_witness :
  exists resp,
    calculate_pricing {| pq_order_id := "ord-6"; pq_symbol := "AAPL"; pq_quantity := 100;
                         pq_order_type := BUY |} (1 # 100) = inl resp /\
    ps_price resp = py_round ((1755 # 10) * (1 + (1 # 100))) 2 /\
    ps_base_amount resp = inject_Z 100 * ps_price resp /\
    ps_total_cost resp ==
      inject_Z 100 * ps_price resp * (1 + (5 # 1000)) + inject_Z 100 * (1 # 100).
Proof.
  refine (calculate_pricing_buy_total
            {| pq_order_id := "ord-6"; pq_symbol := "AAPL"; pq_quantity := 100;
               pq_order_type := BUY |} (1 # 100) (1755 # 10) _ _ _ _);
    [vm_compute; intro; discriminate | vm_compute; intro; discriminate
    | reflexivity | reflexivity].
Defined.

Lemma apply_volume_discount_monotone_witness :
  apply_volume_discount 6000 (1755 # 10) <= apply_volume_discount 1500 (1755 # 10) /\
  apply_volume_discount 1500 (1755 # 10) <= py_round (1755 # 10) 2.
Proof.
  apply apply_volume_discount_monotone; [vm_compute; intro; discriminate | lia].
Defined.

Lemma calculate_institutional_pricing_ok_witness :
  exists r, calculate_institutional_pricing "NVDA" 12000 SELL (- (1 # 100)) = inl r /\
    ip_base_price r = py_round ((4956 # 10) * (1 + - (1 # 100))) 2 /\
    ip_price r = apply_volume_discount 12000 (ip_base_price r) /\
    0 <= ip_volume_discount r.
Proof.
  apply calculate_institutional_pricing_ok;
    [vm_compute; intro; discriminate | vm_compute; intro; discriminate | reflexivity].
Defined.

Lemma escalate_high_risk_order_flags_witness :
  exists r, escalate_high_risk_order "ord-7" 90
              [("quantity", PyInt 400); ("price", PyFloat (2428 # 10))] = Some r /\
    er_manual_approval_required r = false /\
    (er_auto_approved r = true <-> 90 < 85) /\
    reviewed_by (er_escalation r) =
      (if Qltb 90 85 then "RiskManager_AI" else "RiskManager_Human_Required").
Proof.
  eexists. split; [reflexivity|].
  apply (escalate_high_risk_order_flags "ord-7" 90
           [("quantity", PyInt 400); ("price", PyFloat (2428 # 10))]).
  reflexivity.
Defined.

Lemma escalation_ignores_price_for_live_factors_witness :
  exists r, escalate_high_risk_order "ord-8" 80
              (map (fun k => (k, PyInt 1)) calculate_risk_score_keys) = Some r /\
    pi_position_value (er_portfolio_impact r) == 0 /\
    impact_pct (er_portfolio_impact r) == 0 /\
    estimated_volatility_increase (er_portfolio_impact r) = "MODERATE".
Proof.
  apply (escalation_ignores_price_for_live_factors _ _ _ 1%Z); vm_compute; reflexivity.
Defined.

Lemma place_order_pending_approval_witness :
  exists rr esc,
    risk_result (snd (fst (place_order (escalation_env (Ok {| es_auto_approved := false |}))
                                       escalation_order))) = Some rr /\
    75 < ra_risk_score rr /\
    env_escalate (escalation_env (Ok {| es_auto_approved := false |})) = Ok esc /\
    es_auto_approved esc = false /\
    snd (place_order (escalation_env (Ok {| es_auto_approved := false |})) escalation_order) =
      [CValidate; CPricing; CPricing; CRisk; CEscalate].
Proof.
  apply place_order_pending_approval. vm_compute. reflexivity.
Defined.

Lemma place_order_subsaga_failure_witness :
  fst (fst (place_order (escalation_env (HttpError 503%Z)) escalation_order)) =
    Respond (build_error_response
               (snd (fst (place_order (escalation_env (HttpError 503%Z)) escalation_order))) 503) /\
  determine_failure_stage
    (snd (fst (place_order (escalation_env (HttpError 503%Z)) escalation_order))) = Execution /\
  ~ In CExecute (snd (place_order (escalation_env (HttpError 503%Z)) escalation_order)).
Proof.
  apply place_order_subsaga_failure. left. split; [vm_compute; tauto | reflexivity].
Defined.
